(** * Complaint Portal backend: the in-memory store and its handlers

    A shallow embedding of [main.go].  The process-wide [storage] variable
    becomes an explicit [Storage] value threaded through every handler; a
    handler maps the decoded request and the storage to the new storage and
    the HTTP response it writes.  Pointers into the two maps are modelled by
    the key under which the pointed-to object is stored.

    The handlers are taken one at a time, each running to completion: the
    development is about the sequential behaviour of the code, the
    [sync.RWMutex] is left out. *)

From Stdlib Require Import ZArith String Ascii List Lia Permutation.
From stdpp Require Import base numbers list strings pretty gmap fin_maps
  sorting.

Open Scope string_scope.
Open Scope list_scope.
Open Scope Z_scope.

(** ** Go values *)

(** [int] is 64 bits wide on the platforms the README targets; arithmetic
    wraps around in two's complement. *)
Definition intBits : Z := 64.
Definition maxInt : Z := 2 ^ (intBits - 1) - 1.
Definition minInt : Z := - 2 ^ (intBits - 1).
Definition wrap (z : Z) : Z := (z - minInt) mod 2 ^ intBits + minInt.

(** [fmt.Sprintf("%d", z)]: decimal digits, a leading minus sign for
    negative numbers. *)
Definition fmt_d (z : Z) : string := pretty z.

(** [fmt.Sprintf("SEC_%d_%d", a, b)] *)
Definition Sprintf_SEC (a b : Z) : string :=
  "SEC_" +:+ fmt_d a +:+ "_" +:+ fmt_d b.

Definition bytes (l : list N) : string :=
  foldr (fun b s => String (ascii_of_N b) s) EmptyString l.

(** The UTF-8 encodings of the code points for which [unicode.IsSpace]
    holds: tab, LF, VT, FF, CR, space, U+0085, U+00A0, U+1680,
    U+2000..U+200A, U+2028, U+2029, U+202F, U+205F, U+3000. *)
Definition whiteSpace : list string :=
  map bytes
    [ [9]; [10]; [11]; [12]; [13]; [32];
      [194; 133]; [194; 160];
      [225; 154; 128];
      [226; 128; 128]; [226; 128; 129]; [226; 128; 130]; [226; 128; 131];
      [226; 128; 132]; [226; 128; 133]; [226; 128; 134]; [226; 128; 135];
      [226; 128; 136]; [226; 128; 137]; [226; 128; 138];
      [226; 128; 168]; [226; 128; 169]; [226; 128; 175];
      [226; 129; 159];
      [227; 128; 128] ]%N.

Fixpoint dropPrefix (p s : string) : option string :=
  match p, s with
  | EmptyString, _ => Some s
  | String a p', String b s' => if Ascii.eqb a b then dropPrefix p' s' else None
  | String _ _, EmptyString => None
  end.

(** Removes one leading white space rune, if there is one. *)
Fixpoint dropSpace (encs : list string) (s : string) : option string :=
  match encs with
  | [] => None
  | e :: encs' =>
      match dropPrefix e s with
      | Some r => Some r
      | None => dropSpace encs' s
      end
  end.

Fixpoint trimLeading (fuel : nat) (encs : list string) (s : string) : string :=
  match fuel with
  | O => s
  | S fuel' =>
      match dropSpace encs s with
      | Some r => trimLeading fuel' encs r
      | None => s
      end
  end.

Definition TrimLeft (s : string) : string :=
  trimLeading (String.length s) whiteSpace s.

Definition TrimRight (s : string) : string :=
  String.rev
    (trimLeading (String.length s) (map String.rev whiteSpace) (String.rev s)).

(** [strings.TrimSpace] *)
Definition TrimSpace (s : string) : string := TrimRight (TrimLeft s).

(** ** Time *)

(** One reading of [time.Now()]: the seconds since the epoch that
    [Unix()] returns, and the civil fields that [Format] prints. *)
Record Time := {
  Unix : Z;
  Year : Z; Month : Z; Day : Z;
  Hour : Z; Minute : Z; Second : Z
}.

(** Zero-padded decimal of at least [width] digits, as [Format] prints a
    numeric field. *)
Definition appendInt (x : Z) (width : nat) : string :=
  let digits := fmt_d (Z.abs x) in
  (if x <? 0 then "-" else "") +:+
  bytes (replicate (width - String.length digits)%nat 48%N) +:+ digits.

(** [t.Format("2006-01-02 15:04:05")] *)
Definition Format (t : Time) : string :=
  appendInt (Year t) 4 +:+ "-" +:+ appendInt (Month t) 2 +:+ "-" +:+
  appendInt (Day t) 2 +:+ " " +:+ appendInt (Hour t) 2 +:+ ":" +:+
  appendInt (Minute t) 2 +:+ ":" +:+ appendInt (Second t) 2.

Definition getCurrentTime (now : Time) : string := Format now.

(** ** Data model *)

Module Complaint.
Record t := mk {
  ID : Z;
  Title : string;
  Summary : string;
  Rating : Z;
  UserID : Z;
  UserName : string;
  IsResolved : bool;
  CreatedAt : string;
  ResolvedAt : string
}.
End Complaint.

Module User.
Record t := mk {
  ID : Z;
  SecretCode : string;
  Name : string;
  Email : string;
  Complaints : list Complaint.t;
  IsAdmin : bool
}.
End User.

Module LoginRequest.
Record t := mk { SecretCode : string }.
End LoginRequest.

Module RegisterRequest.
Record t := mk { Name : string; Email : string }.
End RegisterRequest.

Module SubmitComplaintRequest.
Record t := mk {
  SecretCode : string; Title : string; Summary : string; Rating : Z
}.
End SubmitComplaintRequest.

Module ViewComplaintRequest.
Record t := mk { SecretCode : string; ComplaintID : Z }.
End ViewComplaintRequest.

Module ResolveComplaintRequest.
Record t := mk { SecretCode : string; ComplaintID : Z }.
End ResolveComplaintRequest.

Module GetComplaintsRequest.
Record t := mk { SecretCode : string }.
End GetComplaintsRequest.

(** What a handler sees of the [*http.Request]: the method, and the body
    as [json.Decode] leaves it ([None] when decoding fails). *)
Record HttpRequest (B : Type) := {
  Method : string;
  Body : option B
}.
Arguments Method {B} _.
Arguments Body {B} _.

Definition MethodPost : string := "POST".

(** The [Data interface{}] field holds one of three shapes. *)
Inductive Payload :=
| NoData
| UserData (u : User.t)
| ComplaintData (c : Complaint.t)
| ComplaintsData (l : list Complaint.t).

Record APIResponse := {
  Success : bool;
  Message : string;
  Data : Payload;
  Error : string
}.

Record Response := {
  StatusCode : Z;
  Reply : APIResponse
}.

Definition StatusOK : Z := 200.
Definition StatusCreated : Z := 201.
Definition StatusBadRequest : Z := 400.
Definition StatusUnauthorized : Z := 401.
Definition StatusForbidden : Z := 403.
Definition StatusNotFound : Z := 404.
Definition StatusMethodNotAllowed : Z := 405.
Definition StatusConflict : Z := 409.

Record Storage := {
  users : gmap Z User.t;
  complaints : gmap Z Complaint.t;
  userIDGen : Z;
  compIDGen : Z
}.

(** The initial value of the [storage] variable. *)
Definition storage : Storage :=
  {| users := ∅; complaints := ∅; userIDGen := 0; compIDGen := 0 |}.

(** ** Ranging over a map *)

(** Go leaves the iteration order of a map unspecified, and it may change
    from one [range] to the next.  The order the runtime takes is an input:
    a list of choices, each selecting the next entry among those not yet
    visited (first entry when the choices run out). *)
Fixpoint pickOrder {A : Type} (fuel : nat) (choice : list nat) (l : list A)
  : list A :=
  match fuel with
  | O => []
  | S fuel' =>
      let i := (hd O choice mod length l)%nat in
      match l !! i with
      | Some x => x :: pickOrder fuel' (tl choice) (delete i l)
      | None => []
      end
  end.

Definition mapRange {V : Type} (choice : list nat) (m : gmap Z V)
  : list (Z * V) :=
  pickOrder (length (map_to_list m)) choice (map_to_list m).

(** What the environment contributes to one handler call: the clock
    reading, and the iteration orders of the two maps. *)
Record Runtime := {
  Now : Time;
  usersIter : list nat;
  complaintsIter : list nat
}.

(** ** Helper functions *)

Definition generateSecretCode (now : Time) (s : Storage) : string :=
  Sprintf_SEC (Unix now) (wrap (userIDGen s + 1)).

(** A [*User] is the key under which the user is stored, together with
    the object found there. *)
Definition findUserBySecretCode (choice : list nat) (s : Storage)
    (secretCode : string) : option (Z * User.t) :=
  find (fun p => String.eqb (User.SecretCode (snd p)) secretCode)
       (mapRange choice (users s)).

Definition findUserByEmail (choice : list nat) (s : Storage)
    (email : string) : option (Z * User.t) :=
  find (fun p => String.eqb (User.Email (snd p)) email)
       (mapRange choice (users s)).

Definition respondWithJSON (statusCode : Z) (response : APIResponse)
  : Response :=
  {| StatusCode := statusCode; Reply := response |}.

Definition respondWithError (statusCode : Z) (message : string) : Response :=
  respondWithJSON statusCode
    {| Success := false; Message := ""; Data := NoData; Error := message |}.

Definition success (message : string) (data : Payload) : APIResponse :=
  {| Success := true; Message := message; Data := data; Error := "" |}.

(** The guards every handler starts with: the method, then the JSON body. *)
Definition decoded {B : Type} (r : HttpRequest B) (s : Storage)
    (k : B -> Storage * Response) : Storage * Response :=
  if negb (String.eqb (Method r) MethodPost) then
    (s, respondWithError StatusMethodNotAllowed "Method not allowed")
  else
    match Body r with
    | None => (s, respondWithError StatusBadRequest "Invalid JSON format")
    | Some req => k req
    end.

Definition blank (s : string) : bool := String.eqb (TrimSpace s) "".

(** ** Handlers *)

Definition registerHandler (rt : Runtime)
    (r : HttpRequest RegisterRequest.t) (s : Storage) : Storage * Response :=
  decoded r s (fun req =>
    if blank (RegisterRequest.Name req) then
      (s, respondWithError StatusBadRequest "Name is required")
    else if blank (RegisterRequest.Email req) then
      (s, respondWithError StatusBadRequest "Email is required")
    else
      match findUserByEmail (usersIter rt) s (RegisterRequest.Email req) with
      | Some _ =>
          (s, respondWithError StatusConflict
                "User with this email already exists")
      | None =>
          let s1 := {| users := users s; complaints := complaints s;
                       userIDGen := wrap (userIDGen s + 1);
                       compIDGen := compIDGen s |} in
          let newUser :=
            {| User.ID := userIDGen s1;
               User.SecretCode := generateSecretCode (Now rt) s1;
               User.Name := TrimSpace (RegisterRequest.Name req);
               User.Email := TrimSpace (RegisterRequest.Email req);
               User.Complaints := [];
               User.IsAdmin := false |} in
          ({| users := <[User.ID newUser := newUser]> (users s1);
              complaints := complaints s1;
              userIDGen := userIDGen s1;
              compIDGen := compIDGen s1 |},
           respondWithJSON StatusCreated
             (success "User registered successfully" (UserData newUser)))
      end).

Definition loginHandler (rt : Runtime)
    (r : HttpRequest LoginRequest.t) (s : Storage) : Storage * Response :=
  decoded r s (fun req =>
    if blank (LoginRequest.SecretCode req) then
      (s, respondWithError StatusBadRequest "Secret code is required")
    else
      match findUserBySecretCode (usersIter rt) s
              (LoginRequest.SecretCode req) with
      | None => (s, respondWithError StatusUnauthorized "Invalid secret code")
      | Some (_, user) =>
          (s, respondWithJSON StatusOK
                (success "Login successful" (UserData user)))
      end).

Definition submitComplaintHandler (rt : Runtime)
    (r : HttpRequest SubmitComplaintRequest.t) (s : Storage)
  : Storage * Response :=
  decoded r s (fun req =>
    if blank (SubmitComplaintRequest.SecretCode req) then
      (s, respondWithError StatusBadRequest "Secret code is required")
    else if blank (SubmitComplaintRequest.Title req) then
      (s, respondWithError StatusBadRequest "Title is required")
    else if blank (SubmitComplaintRequest.Summary req) then
      (s, respondWithError StatusBadRequest "Summary is required")
    else if (SubmitComplaintRequest.Rating req <? 1)
            || (SubmitComplaintRequest.Rating req >? 10) then
      (s, respondWithError StatusBadRequest "Rating must be between 1 and 10")
    else
      match findUserBySecretCode (usersIter rt) s
              (SubmitComplaintRequest.SecretCode req) with
      | None => (s, respondWithError StatusUnauthorized "Invalid secret code")
      | Some (p, user) =>
          let s1 := {| users := users s; complaints := complaints s;
                       userIDGen := userIDGen s;
                       compIDGen := wrap (compIDGen s + 1) |} in
          let newComplaint :=
            {| Complaint.ID := compIDGen s1;
               Complaint.Title := TrimSpace (SubmitComplaintRequest.Title req);
               Complaint.Summary :=
                 TrimSpace (SubmitComplaintRequest.Summary req);
               Complaint.Rating := SubmitComplaintRequest.Rating req;
               Complaint.UserID := User.ID user;
               Complaint.UserName := User.Name user;
               Complaint.IsResolved := false;
               Complaint.CreatedAt := getCurrentTime (Now rt);
               Complaint.ResolvedAt := "" |} in
          let user' :=
            {| User.ID := User.ID user;
               User.SecretCode := User.SecretCode user;
               User.Name := User.Name user;
               User.Email := User.Email user;
               User.Complaints := User.Complaints user ++ [newComplaint];
               User.IsAdmin := User.IsAdmin user |} in
          ({| users := <[p := user']> (users s1);
              complaints :=
                <[Complaint.ID newComplaint := newComplaint]> (complaints s1);
              userIDGen := userIDGen s1;
              compIDGen := compIDGen s1 |},
           respondWithJSON StatusCreated
             (success "Complaint submitted successfully"
                (ComplaintData newComplaint)))
      end).

Definition getAllComplaintsForUserHandler (rt : Runtime)
    (r : HttpRequest GetComplaintsRequest.t) (s : Storage)
  : Storage * Response :=
  decoded r s (fun req =>
    if blank (GetComplaintsRequest.SecretCode req) then
      (s, respondWithError StatusBadRequest "Secret code is required")
    else
      match findUserBySecretCode (usersIter rt) s
              (GetComplaintsRequest.SecretCode req) with
      | None => (s, respondWithError StatusUnauthorized "Invalid secret code")
      | Some (_, user) =>
          let userComplaints :=
            filter (fun c => Complaint.UserID c = User.ID user)
              ((mapRange (complaintsIter rt) (complaints s)).*2) in
          (s, respondWithJSON StatusOK
                (success "User complaints retrieved successfully"
                   (ComplaintsData userComplaints)))
      end).

Definition getAllComplaintsForAdminHandler (rt : Runtime)
    (r : HttpRequest GetComplaintsRequest.t) (s : Storage)
  : Storage * Response :=
  decoded r s (fun req =>
    if blank (GetComplaintsRequest.SecretCode req) then
      (s, respondWithError StatusBadRequest "Secret code is required")
    else
      match findUserBySecretCode (usersIter rt) s
              (GetComplaintsRequest.SecretCode req) with
      | None => (s, respondWithError StatusUnauthorized "Invalid secret code")
      | Some (_, user) =>
          if negb (User.IsAdmin user) then
            (s, respondWithError StatusForbidden
                  "Access denied. Admin privileges required")
          else
            let allComplaints :=
              (mapRange (complaintsIter rt) (complaints s)).*2 in
            (s, respondWithJSON StatusOK
                  (success "All complaints retrieved successfully"
                     (ComplaintsData allComplaints)))
      end).

Definition viewComplaintHandler (rt : Runtime)
    (r : HttpRequest ViewComplaintRequest.t) (s : Storage)
  : Storage * Response :=
  decoded r s (fun req =>
    if blank (ViewComplaintRequest.SecretCode req) then
      (s, respondWithError StatusBadRequest "Secret code is required")
    else if ViewComplaintRequest.ComplaintID req <=? 0 then
      (s, respondWithError StatusBadRequest "Valid complaint ID is required")
    else
      match findUserBySecretCode (usersIter rt) s
              (ViewComplaintRequest.SecretCode req) with
      | None => (s, respondWithError StatusUnauthorized "Invalid secret code")
      | Some (_, user) =>
          match complaints s !! ViewComplaintRequest.ComplaintID req with
          | None => (s, respondWithError StatusNotFound "Complaint not found")
          | Some complaint =>
              if negb (User.IsAdmin user)
                 && negb (Complaint.UserID complaint =? User.ID user) then
                (s, respondWithError StatusForbidden
                      "Access denied. You can only view your own complaints")
              else
                (s, respondWithJSON StatusOK
                      (success "Complaint retrieved successfully"
                         (ComplaintData complaint)))
          end
      end).

(** [complaint.IsResolved = true; complaint.ResolvedAt = at] *)
Definition resolved (at_ : string) (c : Complaint.t) : Complaint.t :=
  {| Complaint.ID := Complaint.ID c;
     Complaint.Title := Complaint.Title c;
     Complaint.Summary := Complaint.Summary c;
     Complaint.Rating := Complaint.Rating c;
     Complaint.UserID := Complaint.UserID c;
     Complaint.UserName := Complaint.UserName c;
     Complaint.IsResolved := true;
     Complaint.CreatedAt := Complaint.CreatedAt c;
     Complaint.ResolvedAt := at_ |}.

(** The loop over [userOwner.Complaints]: the first entry with the
    complaint's id is updated, then [break]. *)
Fixpoint resolveInList (id : Z) (at_ : string) (l : list Complaint.t)
  : list Complaint.t :=
  match l with
  | [] => []
  | c :: l' =>
      if Complaint.ID c =? id then resolved at_ c :: l'
      else c :: resolveInList id at_ l'
  end.

Definition resolveComplaintHandler (rt : Runtime)
    (r : HttpRequest ResolveComplaintRequest.t) (s : Storage)
  : Storage * Response :=
  decoded r s (fun req =>
    if blank (ResolveComplaintRequest.SecretCode req) then
      (s, respondWithError StatusBadRequest "Secret code is required")
    else if ResolveComplaintRequest.ComplaintID req <=? 0 then
      (s, respondWithError StatusBadRequest "Valid complaint ID is required")
    else
      match findUserBySecretCode (usersIter rt) s
              (ResolveComplaintRequest.SecretCode req) with
      | None => (s, respondWithError StatusUnauthorized "Invalid secret code")
      | Some (_, user) =>
          if negb (User.IsAdmin user) then
            (s, respondWithError StatusForbidden
                  "Access denied. Admin privileges required")
          else
            match complaints s !! ResolveComplaintRequest.ComplaintID req with
            | None =>
                (s, respondWithError StatusNotFound "Complaint not found")
            | Some complaint =>
                if Complaint.IsResolved complaint then
                  (s, respondWithError StatusBadRequest
                        "Complaint is already resolved")
                else
                  let complaint' :=
                    resolved (getCurrentTime (Now rt)) complaint in
                  let complaints' :=
                    <[ResolveComplaintRequest.ComplaintID req := complaint']>
                      (complaints s) in
                  let users' :=
                    match users s !! Complaint.UserID complaint' with
                    | Some userOwner =>
                        <[Complaint.UserID complaint' :=
                            {| User.ID := User.ID userOwner;
                               User.SecretCode := User.SecretCode userOwner;
                               User.Name := User.Name userOwner;
                               User.Email := User.Email userOwner;
                               User.Complaints :=
                                 resolveInList (Complaint.ID complaint')
                                   (Complaint.ResolvedAt complaint')
                                   (User.Complaints userOwner);
                               User.IsAdmin := User.IsAdmin userOwner |}]>
                          (users s)
                    | None => users s
                    end in
                  ({| users := users'; complaints := complaints';
                      userIDGen := userIDGen s; compIDGen := compIDGen s |},
                   respondWithJSON StatusOK
                     (success "Complaint resolved successfully"
                        (ComplaintData complaint')))
            end
      end).

Definition createDefaultAdmin (s : Storage) : Storage :=
  let s1 := {| users := users s; complaints := complaints s;
               userIDGen := wrap (userIDGen s + 1);
               compIDGen := compIDGen s |} in
  let adminUser :=
    {| User.ID := userIDGen s1;
       User.SecretCode := "ADMIN_SECRET_123";
       User.Name := "System Administrator";
       User.Email := "admin@complaintportal.com";
       User.Complaints := [];
       User.IsAdmin := true |} in
  {| users := <[User.ID adminUser := adminUser]> (users s1);
     complaints := complaints s1;
     userIDGen := userIDGen s1;
     compIDGen := compIDGen s1 |}.

(** ** The server *)

(** The routes of [main]. *)
Inductive Call :=
| Register (r : HttpRequest RegisterRequest.t)
| Login (r : HttpRequest LoginRequest.t)
| SubmitComplaint (r : HttpRequest SubmitComplaintRequest.t)
| GetAllComplaintsForUser (r : HttpRequest GetComplaintsRequest.t)
| GetAllComplaintsForAdmin (r : HttpRequest GetComplaintsRequest.t)
| ViewComplaint (r : HttpRequest ViewComplaintRequest.t)
| ResolveComplaint (r : HttpRequest ResolveComplaintRequest.t).

Definition serve (rt : Runtime) (c : Call) (s : Storage)
  : Storage * Response :=
  match c with
  | Register r => registerHandler rt r s
  | Login r => loginHandler rt r s
  | SubmitComplaint r => submitComplaintHandler rt r s
  | GetAllComplaintsForUser r => getAllComplaintsForUserHandler rt r s
  | GetAllComplaintsForAdmin r => getAllComplaintsForAdminHandler rt r s
  | ViewComplaint r => viewComplaintHandler rt r s
  | ResolveComplaint r => resolveComplaintHandler rt r s
  end.

(** The requests served one after the other, with the responses written. *)
Fixpoint run (evs : list (Runtime * Call)) (s : Storage)
  : Storage * list Response :=
  match evs with
  | [] => (s, [])
  | (rt, c) :: evs' =>
      let (s1, resp) := serve rt c s in
      let (s2, resps) := run evs' s1 in
      (s2, resp :: resps)
  end.

(** [main] creates the administrator before it serves anything. *)
Definition boot : Storage := createDefaultAdmin storage.

(** ** Runs and what they preserve *)

(** The calls of a run leave the two counters inside the range of [int]. *)
Definition fits (s : Storage) (evs : list (Runtime * Call)) : Prop :=
  userIDGen s + Z.of_nat (length evs) + 1 ≤ maxInt
  ∧ compIDGen s + Z.of_nat (length evs) ≤ maxInt.

(** The account a response reports as created. *)
Definition createdUser (r : Response) : option User.t :=
  if StatusCode r =? StatusCreated then
    match Data (Reply r) with UserData u => Some u | _ => None end
  else None.

(** The complaint a response reports as created. *)
Definition createdComplaint (r : Response) : option Complaint.t :=
  if StatusCode r =? StatusCreated then
    match Data (Reply r) with ComplaintData c => Some c | _ => None end
  else None.



(** The entries of a user's [Complaints] slice that carry the id [id]. *)
Definition copiesOf (id : Z) (u : User.t) : list Complaint.t :=
  filter (fun c => Complaint.ID c = id) (User.Complaints u).

(** What holds of the storage from [boot] on. *)
Record Inv (s : Storage) : Prop := {
  inv_uid : 1 ≤ userIDGen s;
  inv_cid : 0 ≤ compIDGen s;
  inv_user_key : ∀ k u, users s !! k = Some u →
    1 ≤ k ≤ userIDGen s ∧ User.ID u = k;
  inv_comp_key : ∀ k c, complaints s !! k = Some c →
    1 ≤ k ≤ compIDGen s ∧ Complaint.ID c = k;
  inv_owner : ∀ k c, complaints s !! k = Some c →
    ∃ u, users s !! Complaint.UserID c = Some u ∧ c ∈ User.Complaints u;
  inv_view : ∀ k u c, users s !! k = Some u → c ∈ User.Complaints u →
    complaints s !! Complaint.ID c = Some c ∧ Complaint.UserID c = k;
  inv_view_nodup : ∀ k u, users s !! k = Some u →
    NoDup (Complaint.ID <$> User.Complaints u);
  inv_token : ∀ k u, users s !! k = Some u →
    (k = 1 ∧ User.SecretCode u = "ADMIN_SECRET_123")
    ∨ (2 ≤ k ∧ ∃ t, User.SecretCode u = Sprintf_SEC t (k + 1));
  inv_resolved : ∀ k c, complaints s !! k = Some c →
    (Complaint.ResolvedAt c ≠ "" ↔ Complaint.IsResolved c = true)
}.

(** Whether the byte [c] occurs in [s]. *)
Fixpoint occurs (c : ascii) (s : string) : bool :=
  match s with
  | EmptyString => false
  | String a s' => Ascii.eqb a c || occurs c s'
  end.

(** ** The effect of the three mutating handlers, spelled out *)

(** The account [registerHandler] stores when every guard passes. *)
Definition newUserOf (rt : Runtime) (req : RegisterRequest.t) (s : Storage)
  : User.t :=
  {| User.ID := wrap (userIDGen s + 1);
     User.SecretCode :=
       Sprintf_SEC (Unix (Now rt)) (wrap (wrap (userIDGen s + 1) + 1));
     User.Name := TrimSpace (RegisterRequest.Name req);
     User.Email := TrimSpace (RegisterRequest.Email req);
     User.Complaints := [];
     User.IsAdmin := false |}.

(** The complaint [submitComplaintHandler] stores for the caller [user]. *)
Definition newComplaintOf (rt : Runtime) (req : SubmitComplaintRequest.t)
    (user : User.t) (s : Storage) : Complaint.t :=
  {| Complaint.ID := wrap (compIDGen s + 1);
     Complaint.Title := TrimSpace (SubmitComplaintRequest.Title req);
     Complaint.Summary := TrimSpace (SubmitComplaintRequest.Summary req);
     Complaint.Rating := SubmitComplaintRequest.Rating req;
     Complaint.UserID := User.ID user;
     Complaint.UserName := User.Name user;
     Complaint.IsResolved := false;
     Complaint.CreatedAt := getCurrentTime (Now rt);
     Complaint.ResolvedAt := "" |}.

Definition withComplaints (l : list Complaint.t) (u : User.t) : User.t :=
  {| User.ID := User.ID u;
     User.SecretCode := User.SecretCode u;
     User.Name := User.Name u;
     User.Email := User.Email u;
     User.Complaints := l;
     User.IsAdmin := User.IsAdmin u |}.

(** The [users] map after a complaint of [owner] has been resolved. *)
Definition usersAfterResolve (c' : Complaint.t) (s : Storage)
  : gmap Z User.t :=
  match users s !! Complaint.UserID c' with
  | Some userOwner =>
      <[Complaint.UserID c' :=
          withComplaints
            (resolveInList (Complaint.ID c') (Complaint.ResolvedAt c')
               (User.Complaints userOwner)) userOwner]> (users s)
  | None => users s
  end.

(** The account [createDefaultAdmin] stores. *)
Definition adminUser : User.t :=
  {| User.ID := 1;
     User.SecretCode := "ADMIN_SECRET_123";
     User.Name := "System Administrator";
     User.Email := "admin@complaintportal.com";
     User.Complaints := [];
     User.IsAdmin := true |}.

(** What a call creates, and how the counters move with it. *)
Definition userStep (s s' : Storage) (resp : Response) : Prop :=
  (createdUser resp = None ∧ userIDGen s' = userIDGen s)
  ∨ (∃ u, createdUser resp = Some u ∧ User.ID u = userIDGen s + 1
          ∧ userIDGen s' = userIDGen s + 1).

Definition complaintStep (s s' : Storage) (resp : Response) : Prop :=
  (createdComplaint resp = None ∧ compIDGen s' = compIDGen s)
  ∨ (∃ c, createdComplaint resp = Some c ∧ Complaint.ID c = compIDGen s + 1
          ∧ compIDGen s' = compIDGen s + 1).

(** ** Statements about accounts *)

(** No two accounts share an email. *)
Definition emailsDistinct (s : Storage) : Prop :=
  ∀ k1 k2 u1 u2, users s !! k1 = Some u1 → users s !! k2 = Some u2 →
    k1 ≠ k2 → User.Email u1 ≠ User.Email u2.

(** No two accounts share a secret code. *)
Definition tokensDistinct (s : Storage) : Prop :=
  ∀ k1 k2 u1 u2, users s !! k1 = Some u1 → users s !! k2 = Some u2 →
    User.SecretCode u1 = User.SecretCode u2 → k1 = k2.

(** The secret code of [u] is held by no account of [s]. *)
Definition tokenFresh (s : Storage) (u : User.t) : Prop :=
  ∀ k v, users s !! k = Some v → User.SecretCode v ≠ User.SecretCode u.

(** Registration compares the generated code with the codes in the store:
    whatever accounts the store holds, the code of a created account is
    none of theirs. *)
Definition tokenCheckedOnCreate : Prop :=
  ∀ rt r s u, createdUser (registerHandler rt r s).2 = Some u → tokenFresh s u.

(** ** Sample inputs *)

Definition clock0 : Time :=
  {| Unix := 1696348800;
     Year := 2023; Month := 10; Day := 3; Hour := 16; Minute := 0;
     Second := 0 |}.

Definition rt0 : Runtime :=
  {| Now := clock0; usersIter := []; complaintsIter := [] |}.

Definition post {B : Type} (b : B) : HttpRequest B :=
  {| Method := MethodPost; Body := Some b |}.

(** Two registrations whose emails differ by a leading space only. *)
Definition dupEmailRun : list (Runtime * Call) :=
  [ (rt0, Register (post (RegisterRequest.mk "Bo" "dup@x.com")));
    (rt0, Register (post (RegisterRequest.mk "Cy" " dup@x.com"))) ].

(** A store in which account 5 holds the code that the generator yields
    next at the clock reading [clock0]. *)
Definition staleStore : Storage :=
  {| users :=
       {[ 5 := {| User.ID := 5;
                  User.SecretCode := "SEC_1696348800_3";
                  User.Name := "Eve";
                  User.Email := "eve@x.com";
                  User.Complaints := [];
                  User.IsAdmin := false |} ]};
     complaints := ∅;
     userIDGen := 1;
     compIDGen := 0 |}.

(** ** Statements about complaints *)

(** Every stored complaint has, in its owner's [Complaints] slice, exactly
    one entry with its id, and that entry agrees with it on [IsResolved]
    and [ResolvedAt]. *)
Definition viewsAgree (s : Storage) : Prop :=
  ∀ id c, complaints s !! id = Some c →
    ∃ owner copy,
      users s !! Complaint.UserID c = Some owner
      ∧ copiesOf id owner = [copy]
      ∧ Complaint.IsResolved copy = Complaint.IsResolved c
      ∧ Complaint.ResolvedAt copy = Complaint.ResolvedAt c.

(** [ResolvedAt] is set exactly on the resolved complaints. *)
Definition resolvedAtIffResolved (s : Storage) : Prop :=
  ∀ id c, complaints s !! id = Some c →
    (Complaint.ResolvedAt c ≠ "" ↔ Complaint.IsResolved c = true).

(** A resolve request that passes the guards before the store is looked
    at: a decoded POST with a positive id, sent by an administrator. *)
Definition resolveAdmitted (rt : Runtime)
    (r : HttpRequest ResolveComplaintRequest.t)
    (req : ResolveComplaintRequest.t) (s : Storage) : Prop :=
  Method r = MethodPost ∧ Body r = Some req
  ∧ blank (ResolveComplaintRequest.SecretCode req) = false
  ∧ 0 < ResolveComplaintRequest.ComplaintID req
  ∧ ∃ p user,
      findUserBySecretCode (usersIter rt) s
        (ResolveComplaintRequest.SecretCode req) = Some (p, user)
      ∧ User.IsAdmin user = true.

Definition NotFound : Response :=
  respondWithError StatusNotFound "Complaint not found".

Definition AlreadyResolved : Response :=
  respondWithError StatusBadRequest "Complaint is already resolved".

(** Bo registers, files two complaints; the administrator resolves the
    first. *)
Definition sampleRun : list (Runtime * Call) :=
  [ (rt0, Register (post (RegisterRequest.mk "Bo" "bo@x.com")));
    (rt0, SubmitComplaint
            (post (SubmitComplaintRequest.mk "SEC_1696348800_3"
                     "Parking" "Not enough spaces" 1)));
    (rt0, SubmitComplaint
            (post (SubmitComplaintRequest.mk "SEC_1696348800_3"
                     "Noise" "Too loud" 10)));
    (rt0, ResolveComplaint
            (post (ResolveComplaintRequest.mk "ADMIN_SECRET_123" 1))) ].

Definition resolveAgain : HttpRequest ResolveComplaintRequest.t :=
  post (ResolveComplaintRequest.mk "ADMIN_SECRET_123" 1).

Definition resolveSecond : HttpRequest ResolveComplaintRequest.t :=
  post (ResolveComplaintRequest.mk "ADMIN_SECRET_123" 2).

(** ** Statements about listings *)

(** The stored complaints of the account [uid], in the order in which
    [map_to_list] enumerates the map. *)
Definition recordsOf (s : Storage) (uid : Z) : list Complaint.t :=
  filter (fun c => Complaint.UserID c = uid) (map_to_list (complaints s)).*2.

(** The ids of the complaints a response lists, in the order listed. *)
Definition listedIDs (resp : Response) : list Z :=
  match Data (Reply resp) with
  | ComplaintsData l => Complaint.ID <$> l
  | _ => []
  end.

(** The runtime ranges over the complaints starting from the second
    entry rather than the first. *)
Definition rt1 : Runtime :=
  {| Now := clock0; usersIter := []; complaintsIter := [1%nat] |}.

Definition listMine : HttpRequest GetComplaintsRequest.t :=
  post (GetComplaintsRequest.mk "SEC_1696348800_3").

Definition listAll : HttpRequest GetComplaintsRequest.t :=
  post (GetComplaintsRequest.mk "ADMIN_SECRET_123").

(** ** Statements about single calls *)

(** A submission whose text fields pass the guards that precede the
    rating check. *)
Definition fieldsPresent (req : SubmitComplaintRequest.t) : Prop :=
  blank (SubmitComplaintRequest.SecretCode req) = false
  ∧ blank (SubmitComplaintRequest.Title req) = false
  ∧ blank (SubmitComplaintRequest.Summary req) = false.

Definition RatingRejected : Response :=
  respondWithError StatusBadRequest "Rating must be between 1 and 10".

(** A view request that passes the guards before the complaint is looked
    up: a decoded POST with a positive id, whose secret code is that of
    the account [user]. *)
Definition viewAdmitted (rt : Runtime)
    (r : HttpRequest ViewComplaintRequest.t)
    (req : ViewComplaintRequest.t) (s : Storage) (user : User.t) : Prop :=
  Method r = MethodPost ∧ Body r = Some req
  ∧ blank (ViewComplaintRequest.SecretCode req) = false
  ∧ 0 < ViewComplaintRequest.ComplaintID req
  ∧ ∃ p, findUserBySecretCode (usersIter rt) s
           (ViewComplaintRequest.SecretCode req) = Some (p, user).

Definition ViewDenied : Response :=
  respondWithError StatusForbidden
    "Access denied. You can only view your own complaints".

Definition Viewed (c : Complaint.t) : Response :=
  respondWithJSON StatusOK
    (success "Complaint retrieved successfully" (ComplaintData c)).

Definition submitWithRating (rating : Z)
  : HttpRequest SubmitComplaintRequest.t :=
  post (SubmitComplaintRequest.mk "ADMIN_SECRET_123" "Lift" "Out of order"
          rating).

(** Ann registers after [sampleRun]; she owns no complaint. *)
Definition sampleRunAnn : list (Runtime * Call) :=
  (sampleRun ++
   [ (rt0, Register (post (RegisterRequest.mk "Ann" "ann@x.com"))) ])%list.

Definition viewAs (code : string) (id : Z)
  : HttpRequest ViewComplaintRequest.t :=
  post (ViewComplaintRequest.mk code id).

Definition registerAnn : HttpRequest RegisterRequest.t :=
  post (RegisterRequest.mk "Ann" "ann@x.com").

(** Ann registers and files a complaint. *)
Definition annCalls : list (Runtime * Call) :=
  [ (rt0, Register registerAnn);
    (rt0, SubmitComplaint
            (post (SubmitComplaintRequest.mk "SEC_1696348800_4"
                     "Heating" "Cold office" 5))) ].

(** Closes a [fits] goal on a concrete run. *)
Ltac in_range := split; vm_compute; discriminate.

(** ** Statements beyond the listed claims *)

(** The secret code an authenticated call carries, when its body decodes. *)
Definition codeOf (c : Call) : option string :=
  match c with
  | Register _ => None
  | Login r => LoginRequest.SecretCode <$> Body r
  | SubmitComplaint r => SubmitComplaintRequest.SecretCode <$> Body r
  | GetAllComplaintsForUser r => GetComplaintsRequest.SecretCode <$> Body r
  | GetAllComplaintsForAdmin r => GetComplaintsRequest.SecretCode <$> Body r
  | ViewComplaint r => ViewComplaintRequest.SecretCode <$> Body r
  | ResolveComplaint r => ResolveComplaintRequest.SecretCode <$> Body r
  end.

(** No account of [s] holds the secret code [code]. *)
Definition unknownCode (s : Storage) (code : string) : Prop :=
  ∀ k u, users s !! k = Some u → User.SecretCode u ≠ code.

(** The byte [c] is part of no white space encoding. *)
Definition solid (c : ascii) : bool :=
  forallb (fun e => negb (occurs c e)) whiteSpace.

Definition Unauthorized : Response :=
  respondWithError StatusUnauthorized "Invalid secret code".

Definition AdminRequired : Response :=
  respondWithError StatusForbidden "Access denied. Admin privileges required".

Definition loginAs (code : string) : HttpRequest LoginRequest.t :=
  post (LoginRequest.mk code).

(** Two values of one account: everything but the [Complaints] slice is
    the same. *)
Definition sameAccount (u u' : User.t) : Prop :=
  User.ID u' = User.ID u
  ∧ User.SecretCode u' = User.SecretCode u
  ∧ User.Name u' = User.Name u
  ∧ User.Email u' = User.Email u
  ∧ User.IsAdmin u' = User.IsAdmin u.

(** Two values of one complaint: everything but [IsResolved] and
    [ResolvedAt] is the same. *)
Definition sameComplaint (c c' : Complaint.t) : Prop :=
  Complaint.ID c' = Complaint.ID c
  ∧ Complaint.Title c' = Complaint.Title c
  ∧ Complaint.Summary c' = Complaint.Summary c
  ∧ Complaint.Rating c' = Complaint.Rating c
  ∧ Complaint.UserID c' = Complaint.UserID c
  ∧ Complaint.UserName c' = Complaint.UserName c
  ∧ Complaint.CreatedAt c' = Complaint.CreatedAt c.

(** More of what holds of the storage from [boot] on. *)
Record WellFormed (s : Storage) : Prop := {
  wf_admin : ∀ k u, users s !! k = Some u →
    (User.IsAdmin u = true ↔ k = 1);
  wf_user_dom : ∀ k, 1 ≤ k ≤ userIDGen s → is_Some (users s !! k);
  wf_comp_dom : ∀ k, 1 ≤ k ≤ compIDGen s → is_Some (complaints s !! k);
  wf_user_fields : ∀ k u, users s !! k = Some u →
    User.Name u ≠ "" ∧ User.Email u ≠ "";
  wf_comp_fields : ∀ k c, complaints s !! k = Some c →
    Complaint.Title c ≠ "" ∧ Complaint.Summary c ≠ ""
    ∧ 1 ≤ Complaint.Rating c ≤ 10 ∧ Complaint.CreatedAt c ≠ "";
  wf_owner_name : ∀ k c, complaints s !! k = Some c →
    ∃ u, users s !! Complaint.UserID c = Some u
         ∧ Complaint.UserName c = User.Name u;
  wf_sorted : ∀ k u, users s !! k = Some u →
    StronglySorted Z.lt (Complaint.ID <$> User.Complaints u)
}.

(** * Properties *)

(** ** Ranging over a map *)

Lemma pickOrder_Permutation {A : Type} (n : nat) :
  ∀ (choice : list nat) (l : list A), n = length l →
    pickOrder n choice l ≡ₚ l.
Proof.
  induction n as [|n IH]; intros choice l Hn.
  - destruct l; [done | discriminate].
  - destruct l as [|a l]; [discriminate|].
    cbn [pickOrder].
    set (i := (hd O choice mod length (a :: l))%nat).
    assert (i < length (a :: l))%nat as Hi
      by (apply Nat.mod_upper_bound; simpl; lia).
    destruct (lookup_lt_is_Some_2 _ _ Hi) as [x Hx]. rewrite Hx.
    rewrite (delete_Permutation (a :: l) i x Hx) at 2.
    constructor. apply IH.
    rewrite length_delete by eauto. simpl in *. lia.
Qed.

(** Every order is taken for some choice of the runtime. *)
Lemma pickOrder_complete {A : Type} (l' : list A) :
  ∀ l, l' ≡ₚ l → ∃ choice, pickOrder (length l) choice l = l'.
Proof.
  induction l' as [|x l' IH]; intros l Hp.
  - apply Permutation_nil in Hp. subst l. by exists [].
  - assert (x ∈ l) as [i Hi]%list_elem_of_lookup
      by (apply elem_of_Permutation; by exists l').
    pose proof (lookup_lt_Some _ _ _ Hi) as Hlt.
    destruct (IH (delete i l)) as [choice Hc].
    { apply (Permutation_cons_inv (a := x)).
      by rewrite Hp, <- delete_Permutation. }
    exists (i :: choice).
    destruct l as [|a l]; [simpl in Hlt; lia|].
    change (length (a :: l)) with (S (length l)) at 1.
    cbn [pickOrder hd tl]. rewrite Nat.mod_small by done. rewrite Hi.
    f_equal. rewrite <- Hc. f_equal.
    rewrite length_delete by eauto. simpl. lia.
Qed.

Lemma mapRange_Permutation {V : Type} (choice : list nat) (m : gmap Z V) :
  mapRange choice m ≡ₚ map_to_list m.
Proof. by apply pickOrder_Permutation. Qed.

Lemma elem_of_mapRange {V : Type} (choice : list nat) (m : gmap Z V) k v :
  (k, v) ∈ mapRange choice m ↔ m !! k = Some v.
Proof. by rewrite mapRange_Permutation, elem_of_map_to_list. Qed.

Lemma find_mapRange_Some {V : Type} (f : Z * V → bool) choice
    (m : gmap Z V) k v :
  find f (mapRange choice m) = Some (k, v) → m !! k = Some v ∧ f (k, v) = true.
Proof.
  intros H. apply find_some in H as [Hin Hf]. split; [|done].
  by apply (elem_of_mapRange choice), list_elem_of_In.
Qed.

Lemma find_mapRange_None {V : Type} (f : Z * V → bool) choice
    (m : gmap Z V) :
  find f (mapRange choice m) = None → ∀ k v, m !! k = Some v → f (k, v) = false.
Proof.
  intros H k v Hkv. apply (find_none _ _ H).
  by apply list_elem_of_In, elem_of_mapRange.
Qed.

Lemma find_mapRange_is_Some {V : Type} (f : Z * V → bool) choice
    (m : gmap Z V) k v :
  m !! k = Some v → f (k, v) = true → is_Some (find f (mapRange choice m)).
Proof.
  intros Hkv Hf. destruct (find f (mapRange choice m)) eqn:E; [eauto|].
  rewrite (find_mapRange_None _ _ _ E k v Hkv) in Hf. discriminate.
Qed.

Lemma findUserBySecretCode_Some choice s code p u :
  findUserBySecretCode choice s code = Some (p, u) →
  users s !! p = Some u ∧ User.SecretCode u = code.
Proof.
  intros H. apply find_mapRange_Some in H as [? H]. split; [done|].
  by apply String.eqb_eq in H.
Qed.

Lemma findUserBySecretCode_None choice s code :
  findUserBySecretCode choice s code = None →
  ∀ k u, users s !! k = Some u → User.SecretCode u ≠ code.
Proof.
  intros H k u Hku. apply (find_mapRange_None _ _ _ H) in Hku.
  by apply String.eqb_neq in Hku.
Qed.

Lemma findUserByEmail_None choice s email :
  findUserByEmail choice s email = None →
  ∀ k u, users s !! k = Some u → User.Email u ≠ email.
Proof.
  intros H k u Hku. apply (find_mapRange_None _ _ _ H) in Hku.
  by apply String.eqb_neq in Hku.
Qed.

Lemma findUserByEmail_is_Some choice s email k u :
  users s !! k = Some u → User.Email u = email →
  is_Some (findUserByEmail choice s email).
Proof.
  intros Hku He. eapply find_mapRange_is_Some; [done|].
  by apply String.eqb_eq.
Qed.

(** ** Integers and their decimal form *)

Lemma wrap_id z : minInt ≤ z ≤ maxInt → wrap z = z.
Proof.
  unfold wrap, minInt, maxInt, intBits. intros H.
  rewrite Z.mod_small; lia.
Qed.

Lemma occurs_app c s1 s2 : occurs c (s1 +:+ s2) = occurs c s1 || occurs c s2.
Proof.
  induction s1 as [|a s1 IH]; simpl; [done|].
  by rewrite IH, orb_assoc.
Qed.

Lemma pretty_N_char_digit x : Ascii.eqb (pretty_N_char x) "_" = false.
Proof. unfold pretty_N_char. by repeat case_match. Qed.

Lemma occurs_pretty_N_go x s :
  occurs "_" (pretty_N_go x s) = occurs "_" s.
Proof.
  revert s. induction (N.lt_wf_0 x) as [x _ IH]; intros s.
  assert (x = 0 ∨ 0 < x)%N as [->|Hx] by lia.
  - by rewrite pretty_N_go_0.
  - rewrite pretty_N_go_step by done.
    rewrite IH by (by apply N.div_lt).
    simpl. by rewrite pretty_N_char_digit.
Qed.

Lemma occurs_fmt_d z : occurs "_" (fmt_d z) = false.
Proof.
  unfold fmt_d, pretty, pretty_Z, pretty, pretty_positive, pretty, pretty_N.
  destruct z as [|p|p]; [done|..]; case_decide; try done.
  - by rewrite occurs_pretty_N_go.
  - by rewrite occurs_app, occurs_pretty_N_go.
Qed.

(** A string splits in one way only around the first occurrence of a
    byte. *)
Lemma split_at_first c s1 s2 r1 r2 :
  occurs c s1 = false → occurs c s2 = false →
  s1 +:+ String c r1 = s2 +:+ String c r2 → s1 = s2 ∧ r1 = r2.
Proof.
  revert s2. induction s1 as [|a s1 IH]; intros [|b s2]; simpl.
  - intros _ _ [= ->]. done.
  - intros _ H [= <- _]. by rewrite Ascii.eqb_refl in H.
  - intros H _ [= -> _]. by rewrite Ascii.eqb_refl in H.
  - intros [_ H1]%orb_false_elim [_ H2]%orb_false_elim [= -> Heq].
    by destruct (IH _ H1 H2 Heq) as [-> ->].
Qed.

Lemma Sprintf_SEC_inj a b a' b' :
  Sprintf_SEC a b = Sprintf_SEC a' b' → a = a' ∧ b = b'.
Proof.
  unfold Sprintf_SEC. intros [= H].
  apply split_at_first in H as [Ha Hb]; try apply occurs_fmt_d.
  split; by apply (inj pretty).
Qed.

Lemma Sprintf_SEC_not_admin a b : Sprintf_SEC a b ≠ "ADMIN_SECRET_123".
Proof. discriminate. Qed.

Lemma append_empty_r s1 s2 : s1 +:+ s2 = "" → s2 = "".
Proof. destruct s1; [done | discriminate]. Qed.

Lemma getCurrentTime_nonempty now : getCurrentTime now ≠ "".
Proof.
  unfold getCurrentTime, Format. intros H.
  apply append_empty_r in H. discriminate.
Qed.

(** ** What each handler does to the storage *)

Lemma registerHandler_effect rt r s :
  (registerHandler rt r s).1 = s
  ∧ createdUser (registerHandler rt r s).2 = None
  ∧ StatusCode (registerHandler rt r s).2 ≠ StatusCreated
  ∨ ∃ req, Body r = Some req
      ∧ findUserByEmail (usersIter rt) s (RegisterRequest.Email req) = None
      ∧ registerHandler rt r s =
          ({| users := <[wrap (userIDGen s + 1) := newUserOf rt req s]> (users s);
              complaints := complaints s;
              userIDGen := wrap (userIDGen s + 1);
              compIDGen := compIDGen s |},
           respondWithJSON StatusCreated
             (success "User registered successfully"
                (UserData (newUserOf rt req s)))).
Proof.
  unfold registerHandler, decoded.
  destruct (negb _); [by left|].
  destruct (Body r) as [req|]; [|by left].
  destruct (blank (RegisterRequest.Name req)); [by left|].
  destruct (blank (RegisterRequest.Email req)); [by left|].
  destruct (findUserByEmail _ _ _) eqn:E; [by left|].
  right. by exists req.
Qed.

Lemma submitComplaintHandler_effect rt r s :
  (submitComplaintHandler rt r s).1 = s
  ∧ createdComplaint (submitComplaintHandler rt r s).2 = None
  ∧ StatusCode (submitComplaintHandler rt r s).2 ≠ StatusCreated
  ∨ ∃ req p user, Body r = Some req
      ∧ findUserBySecretCode (usersIter rt) s
          (SubmitComplaintRequest.SecretCode req) = Some (p, user)
      ∧ 1 ≤ SubmitComplaintRequest.Rating req ≤ 10
      ∧ submitComplaintHandler rt r s =
          ({| users :=
                <[p := withComplaints
                         (User.Complaints user ++ [newComplaintOf rt req user s])
                         user]> (users s);
              complaints :=
                <[wrap (compIDGen s + 1) := newComplaintOf rt req user s]>
                  (complaints s);
              userIDGen := userIDGen s;
              compIDGen := wrap (compIDGen s + 1) |},
           respondWithJSON StatusCreated
             (success "Complaint submitted successfully"
                (ComplaintData (newComplaintOf rt req user s)))).
Proof.
  unfold submitComplaintHandler, decoded.
  destruct (negb _); [by left|].
  destruct (Body r) as [req|]; [|by left].
  destruct (blank (SubmitComplaintRequest.SecretCode req)); [by left|].
  destruct (blank (SubmitComplaintRequest.Title req)); [by left|].
  destruct (blank (SubmitComplaintRequest.Summary req)); [by left|].
  destruct (_ || _) eqn:Hr; [by left|].
  destruct (findUserBySecretCode _ _ _) as [[p user]|] eqn:E; [|by left].
  right. exists req, p, user. repeat split; try done; lia.
Qed.

Lemma resolveComplaintHandler_effect rt r s :
  (resolveComplaintHandler rt r s).1 = s
  ∧ StatusCode (resolveComplaintHandler rt r s).2 ≠ StatusOK
  ∨ ∃ req c, Body r = Some req
      ∧ complaints s !! ResolveComplaintRequest.ComplaintID req = Some c
      ∧ Complaint.IsResolved c = false
      ∧ resolveComplaintHandler rt r s =
          ({| users :=
                usersAfterResolve (resolved (getCurrentTime (Now rt)) c) s;
              complaints :=
                <[ResolveComplaintRequest.ComplaintID req :=
                    resolved (getCurrentTime (Now rt)) c]> (complaints s);
              userIDGen := userIDGen s;
              compIDGen := compIDGen s |},
           respondWithJSON StatusOK
             (success "Complaint resolved successfully"
                (ComplaintData (resolved (getCurrentTime (Now rt)) c)))).
Proof.
  unfold resolveComplaintHandler, decoded.
  destruct (negb _); [by left|].
  destruct (Body r) as [req|]; [|by left].
  destruct (blank _); [by left|].
  destruct (_ <=? 0); [by left|].
  destruct (findUserBySecretCode _ _ _) as [[p user]|]; [|by left].
  destruct (negb _); [by left|].
  destruct (complaints s !! _) as [c|] eqn:E; [|by left].
  destruct (Complaint.IsResolved c) eqn:Hres; [by left|].
  right. exists req, c. repeat split; try done.
Qed.

Lemma loginHandler_state rt r s : (loginHandler rt r s).1 = s.
Proof.
  unfold loginHandler, decoded. repeat case_match; done.
Qed.

Lemma getAllComplaintsForUserHandler_state rt r s :
  (getAllComplaintsForUserHandler rt r s).1 = s.
Proof.
  unfold getAllComplaintsForUserHandler, decoded. repeat case_match; done.
Qed.

Lemma getAllComplaintsForAdminHandler_state rt r s :
  (getAllComplaintsForAdminHandler rt r s).1 = s.
Proof.
  unfold getAllComplaintsForAdminHandler, decoded. repeat case_match; done.
Qed.

Lemma viewComplaintHandler_state rt r s :
  (viewComplaintHandler rt r s).1 = s.
Proof.
  unfold viewComplaintHandler, decoded. repeat case_match; done.
Qed.

(** ** The loop that updates the owner's copy *)

Lemma resolveInList_ids id at_ l :
  Complaint.ID <$> resolveInList id at_ l = Complaint.ID <$> l.
Proof.
  induction l as [|c l IH]; [done|]. cbn [resolveInList].
  destruct (Complaint.ID c =? id); [done|].
  rewrite !fmap_cons. by rewrite IH.
Qed.

Lemma resolveInList_other id at_ l c :
  c ∈ l → Complaint.ID c ≠ id → c ∈ resolveInList id at_ l.
Proof.
  induction l as [|c0 l IH]; simpl; [done|].
  intros [->|Hin]%elem_of_cons Hne.
  - destruct (Z.eqb_spec (Complaint.ID c0) id); [done|]. left.
  - destruct (Complaint.ID c0 =? id); right; auto.
Qed.

Lemma resolveInList_hit id at_ l c :
  c ∈ l → Complaint.ID c = id →
  (∀ c0, c0 ∈ l → Complaint.ID c0 = id → c0 = c) →
  resolved at_ c ∈ resolveInList id at_ l.
Proof.
  induction l as [|c0 l IH]; simpl; [by intros ?%elem_of_nil|].
  intros Hin Hid Huniq.
  destruct (Z.eqb_spec (Complaint.ID c0) id) as [Heq|Hne].
  - rewrite (Huniq c0) by (done || left). left.
  - apply elem_of_cons in Hin as [->|Hin]; [done|].
    right. apply IH; [done..|]. intros c1 ?. apply Huniq. by right.
Qed.

Lemma elem_of_resolveInList id at_ l c :
  NoDup (Complaint.ID <$> l) → c ∈ resolveInList id at_ l →
  (c ∈ l ∧ Complaint.ID c ≠ id)
  ∨ (∃ c1, c1 ∈ l ∧ Complaint.ID c1 = id ∧ c = resolved at_ c1).
Proof.
  induction l as [|c0 l IH]; simpl; [by intros _ ?%elem_of_nil|].
  intros [Hnotin Hnd]%NoDup_cons.
  destruct (Z.eqb_spec (Complaint.ID c0) id) as [Heq|Hne].
  - intros [->|Hin]%elem_of_cons.
    + right. exists c0. split; [left|done].
    + left. split; [by right|]. intros Hc. apply Hnotin.
      rewrite Heq, <- Hc. by apply list_elem_of_fmap_2.
  - intros [->|Hin]%elem_of_cons.
    + left. split; [left|done].
    + destruct (IH Hnd Hin) as [[? ?]|(c1 & ? & ? & ?)].
      * left. split; [by right|done].
      * right. exists c1. split; [by right|done].
Qed.

(** ** The invariant *)

Lemma boot_eq :
  boot = {| users := {[1 := adminUser]}; complaints := ∅;
            userIDGen := 1; compIDGen := 0 |}.
Proof. reflexivity. Qed.

Lemma Inv_boot : Inv boot.
Proof.
  rewrite boot_eq. split; simpl.
  - done.
  - done.
  - intros k u [<- <-]%lookup_singleton_Some. done.
  - intros k c. by rewrite lookup_empty.
  - intros k c. by rewrite lookup_empty.
  - intros k u c [<- <-]%lookup_singleton_Some. by intros ?%elem_of_nil.
  - intros k u [<- <-]%lookup_singleton_Some. constructor.
  - intros k u [<- <-]%lookup_singleton_Some. by left.
  - intros k c. by rewrite lookup_empty.
Qed.

Lemma wrap_succ z : 0 ≤ z → z + 1 ≤ maxInt → wrap (z + 1) = z + 1.
Proof.
  intros ? ?. apply wrap_id. unfold minInt, maxInt, intBits in *. lia.
Qed.

Lemma Inv_register rt req s :
  Inv s → userIDGen s + 2 ≤ maxInt →
  Inv {| users := <[wrap (userIDGen s + 1) := newUserOf rt req s]> (users s);
         complaints := complaints s;
         userIDGen := wrap (userIDGen s + 1);
         compIDGen := compIDGen s |}.
Proof.
  intros [] Hb. unfold newUserOf.
  rewrite !(wrap_succ (userIDGen s)) by lia.
  rewrite (wrap_succ (userIDGen s + 1)) by lia.
  split; simpl.
  - lia.
  - done.
  - intros k u [[<- <-]|[? Hk]]%lookup_insert_Some; simpl; [lia|].
    apply inv_user_key0 in Hk. lia.
  - done.
  - intros k c Hk. destruct (inv_owner0 k c Hk) as (u & Hu & Hin).
    exists u. split; [|done]. rewrite lookup_insert_ne; [done|].
    apply inv_user_key0 in Hu. lia.
  - intros k u c [[<- <-]|[? Hk]]%lookup_insert_Some; simpl.
    + by intros ?%elem_of_nil.
    + by eapply inv_view0.
  - intros k u [[<- <-]|[? Hk]]%lookup_insert_Some; simpl.
    + constructor.
    + by eapply inv_view_nodup0.
  - intros k u [[<- <-]|[? Hk]]%lookup_insert_Some; simpl.
    + right. split; [lia|]. by eexists.
    + by apply inv_token0.
  - done.
Qed.

Lemma Inv_submit rt req p user s :
  Inv s → compIDGen s + 1 ≤ maxInt → users s !! p = Some user →
  Inv {| users :=
           <[p := withComplaints
                    (User.Complaints user ++ [newComplaintOf rt req user s])
                    user]> (users s);
         complaints :=
           <[wrap (compIDGen s + 1) := newComplaintOf rt req user s]>
             (complaints s);
         userIDGen := userIDGen s;
         compIDGen := wrap (compIDGen s + 1) |}.
Proof.
  intros [] Hb Hp. unfold newComplaintOf.
  rewrite !(wrap_succ (compIDGen s)) by lia.
  set (c := Complaint.mk _ _ _ _ _ _ _ _ _).
  assert (User.ID user = p) as Hid by (by destruct (inv_user_key0 p user Hp)).
  assert (∀ k u c0, users s !! k = Some u → c0 ∈ User.Complaints u →
            Complaint.ID c0 ≠ compIDGen s + 1) as Hfresh.
  { intros k u c0 Hk Hin. destruct (inv_view0 k u c0 Hk Hin) as [Hc _].
    apply inv_comp_key0 in Hc. lia. }
  split; simpl.
  - done.
  - lia.
  - intros k u [[<- <-]|[? Hk]]%lookup_insert_Some; simpl; [|by auto].
    by apply inv_user_key0.
  - intros k c0 [[<- <-]|[? Hk]]%lookup_insert_Some; simpl; [lia|].
    apply inv_comp_key0 in Hk. lia.
  - intros k c0 [[<- <-]|[? Hk]]%lookup_insert_Some; simpl.
    + rewrite Hid, lookup_insert_eq. eexists. split; [done|]. simpl.
      apply elem_of_app. right. left.
    + destruct (inv_owner0 k c0 Hk) as (u & Hu & Hin).
      destruct (decide (p = Complaint.UserID c0)) as [->|Hne].
      * rewrite lookup_insert_eq. eexists. split; [done|]. simpl.
        apply elem_of_app. left. congruence.
      * rewrite lookup_insert_ne by done. eauto.
  - intros k u c0 [[<- <-]|[? Hk]]%lookup_insert_Some; simpl.
    + intros [Hin|Hin]%elem_of_app.
      * rewrite lookup_insert_ne by (symmetry; eauto).
        by eapply inv_view0.
      * apply list_elem_of_singleton in Hin as ->.
        simpl. by rewrite lookup_insert_eq.
    + intros Hin. rewrite lookup_insert_ne by (symmetry; eauto).
      by eapply inv_view0.
  - intros k u [[<- <-]|[? Hk]]%lookup_insert_Some; simpl.
    + rewrite fmap_app. apply NoDup_app. split; [by eapply inv_view_nodup0|].
      split; [|apply NoDup_singleton].
      intros i (c0 & -> & Hin)%list_elem_of_fmap Hi.
      apply list_elem_of_singleton in Hi.
      by eapply Hfresh.
    + by eapply inv_view_nodup0.
  - intros k u [[<- <-]|[? Hk]]%lookup_insert_Some; simpl; by apply inv_token0.
  - intros k c0 [[<- <-]|[? Hk]]%lookup_insert_Some; simpl; [|by eauto].
    split; [done|discriminate].
Qed.

Lemma Inv_resolve at_ id c s :
  Inv s → at_ ≠ "" → complaints s !! id = Some c →
  Inv {| users := usersAfterResolve (resolved at_ c) s;
         complaints := <[id := resolved at_ c]> (complaints s);
         userIDGen := userIDGen s;
         compIDGen := compIDGen s |}.
Proof.
  intros [] Hat Hc.
  destruct (inv_comp_key0 id c Hc) as [Hrange Hid].
  destruct (inv_owner0 id c Hc) as (owner & Howner & Hin).
  assert (∀ c0, complaints s !! Complaint.ID c0 = Some c0 →
            Complaint.ID c0 = id → c0 = c) as Hsame.
  { intros c0 H0 Heq. rewrite Heq in H0. congruence. }
  unfold usersAfterResolve. simpl. rewrite Howner, Hid.
  split; simpl.
  - done.
  - done.
  - intros k u [[<- <-]|[? Hk]]%lookup_insert_Some; simpl; [|by auto].
    by apply inv_user_key0.
  - intros k c0 [[<- <-]|[? Hk]]%lookup_insert_Some; simpl; by auto.
  - intros k c0 [[<- <-]|[? Hk]]%lookup_insert_Some; simpl.
    + rewrite lookup_insert_eq. eexists. split; [done|]. simpl.
      apply resolveInList_hit; [done..|].
      intros c0 Hin0 ?. apply Hsame; [|done].
      by eapply inv_view0.
    + destruct (inv_owner0 k c0 Hk) as (u & Hu & Hin0).
      assert (Complaint.ID c0 ≠ id)
        by (apply inv_comp_key0 in Hk; lia).
      destruct (decide (Complaint.UserID c = Complaint.UserID c0))
        as [Heq|Hne].
      * rewrite Heq, lookup_insert_eq. eexists. split; [done|]. simpl.
        apply resolveInList_other; [|done]. congruence.
      * rewrite lookup_insert_ne by done. eauto.
  - intros k u c0 [[<- <-]|[? Hk]]%lookup_insert_Some; simpl.
    + intros [[Hin0 Hne]|(c1 & Hin1 & Hid1 & ->)]%elem_of_resolveInList;
        [| |by eapply inv_view_nodup0].
      * rewrite lookup_insert_ne by done. by eapply inv_view0.
      * rewrite (Hsame c1) by (done || by eapply inv_view0).
        simpl. by rewrite Hid, lookup_insert_eq.
    + intros Hin0. destruct (inv_view0 k u c0 Hk Hin0) as [H0 Hu0].
      split; [|done]. rewrite lookup_insert_ne; [done|].
      intros Heq. rewrite (Hsame c0) in Hu0 by done. congruence.
  - intros k u [[<- <-]|[? Hk]]%lookup_insert_Some; simpl.
    + rewrite resolveInList_ids. by eapply inv_view_nodup0.
    + by eapply inv_view_nodup0.
  - intros k u [[<- <-]|[? Hk]]%lookup_insert_Some; simpl; by apply inv_token0.
  - intros k c0 [[<- <-]|[? Hk]]%lookup_insert_Some; simpl; by eauto.
Qed.

(** ** Runs *)

Lemma run_cons rt c evs s :
  run ((rt, c) :: evs) s =
    ((run evs (serve rt c s).1).1,
     (serve rt c s).2 :: (run evs (serve rt c s).1).2).
Proof.
  simpl. destruct (serve rt c s) as [s1 resp]. simpl.
  by destruct (run evs s1).
Qed.

Lemma run_app evs1 evs2 s :
  run (evs1 ++ evs2) s =
    ((run evs2 (run evs1 s).1).1,
     ((run evs1 s).2 ++ (run evs2 (run evs1 s).1).2)%list).
Proof.
  revert s. induction evs1 as [|[rt c] evs1 IH]; intros s.
  - simpl. by destruct (run evs2 s).
  - rewrite <- app_comm_cons, !run_cons, IH. done.
Qed.

Lemma steps_of_readonly s resp :
  StatusCode resp ≠ StatusCreated → userStep s s resp ∧ complaintStep s s resp.
Proof.
  intros H. apply Z.eqb_neq in H.
  split; left; unfold createdUser, createdComplaint; by rewrite H.
Qed.

Lemma serve_steps rt c s :
  0 ≤ userIDGen s → 0 ≤ compIDGen s →
  userIDGen s + 1 ≤ maxInt → compIDGen s + 1 ≤ maxInt →
  userStep s (serve rt c s).1 (serve rt c s).2
  ∧ complaintStep s (serve rt c s).1 (serve rt c s).2.
Proof.
  intros Hu Hc Hbu Hbc. destruct c as [r|r|r|r|r|r|r]; simpl.
  - destruct (registerHandler_effect rt r s) as [(-> & _ & Hst)|(req & _ & _ & ->)].
    + by apply steps_of_readonly.
    + simpl. split; [right|by left].
      eexists. split; [done|]. simpl. by rewrite wrap_succ.
  - rewrite loginHandler_state. apply steps_of_readonly.
    unfold loginHandler, decoded. by repeat case_match.
  - destruct (submitComplaintHandler_effect rt r s)
      as [(-> & _ & Hst)|(req & p & u & _ & _ & _ & ->)].
    + by apply steps_of_readonly.
    + simpl. split; [by left|right].
      eexists. split; [done|]. simpl. by rewrite wrap_succ.
  - rewrite getAllComplaintsForUserHandler_state. apply steps_of_readonly.
    unfold getAllComplaintsForUserHandler, decoded. by repeat case_match.
  - rewrite getAllComplaintsForAdminHandler_state. apply steps_of_readonly.
    unfold getAllComplaintsForAdminHandler, decoded. by repeat case_match.
  - rewrite viewComplaintHandler_state. apply steps_of_readonly.
    unfold viewComplaintHandler, decoded. by repeat case_match.
  - destruct (resolveComplaintHandler_effect rt r s)
      as [(-> & Hst)|(req & c & _ & _ & _ & ->)].
    + apply steps_of_readonly.
      unfold resolveComplaintHandler, decoded. by repeat case_match.
    + simpl. by split; left.
Qed.

Lemma serve_Inv rt c s :
  Inv s → userIDGen s + 2 ≤ maxInt → compIDGen s + 1 ≤ maxInt →
  Inv (serve rt c s).1.
Proof.
  intros HI Hbu Hbc. destruct c as [r|r|r|r|r|r|r]; simpl.
  - destruct (registerHandler_effect rt r s) as [(-> & _)|(req & _ & _ & ->)];
      [done|]. by apply Inv_register.
  - by rewrite loginHandler_state.
  - destruct (submitComplaintHandler_effect rt r s)
      as [(-> & _)|(req & p & u & _ & Hf & _ & ->)]; [done|].
    apply Inv_submit; [done..|]. by destruct (findUserBySecretCode_Some _ _ _ _ _ Hf).
  - by rewrite getAllComplaintsForUserHandler_state.
  - by rewrite getAllComplaintsForAdminHandler_state.
  - by rewrite viewComplaintHandler_state.
  - destruct (resolveComplaintHandler_effect rt r s)
      as [(-> & _)|(req & c & _ & Hc & _ & ->)]; [done|].
    apply Inv_resolve; [done| |done]. apply getCurrentTime_nonempty.
Qed.

Lemma fits_cons rt c evs s :
  0 ≤ userIDGen s → 0 ≤ compIDGen s →
  fits s ((rt, c) :: evs) → fits (serve rt c s).1 evs.
Proof.
  intros Hu Hc [Hfu Hfc]. simpl length in *.
  destruct (serve_steps rt c s) as [HU HC]; [lia..|].
  unfold fits.
  destruct HU as [[_ ->]|(? & _ & _ & ->)], HC as [[_ ->]|(? & _ & _ & ->)];
    lia.
Qed.

Lemma run_Inv evs : ∀ s, Inv s → fits s evs → Inv (run evs s).1.
Proof.
  induction evs as [|[rt c] evs IH]; intros s HI Hf; [done|].
  rewrite run_cons. simpl. apply IH.
  - destruct Hf. simpl length in *.
    pose proof (inv_uid _ HI). pose proof (inv_cid _ HI).
    apply serve_Inv; [done|lia..].
  - pose proof (inv_uid _ HI). pose proof (inv_cid _ HI).
    apply fits_cons; [lia..|done].
Qed.

Lemma fits_app_l s evs1 evs2 : fits s (evs1 ++ evs2) → fits s evs1.
Proof. unfold fits. rewrite length_app. lia. Qed.

Lemma run_counters evs : ∀ s,
  0 ≤ userIDGen s → 0 ≤ compIDGen s → fits s evs →
  userIDGen s ≤ userIDGen (run evs s).1 ≤ userIDGen s + Z.of_nat (length evs)
  ∧ compIDGen s ≤ compIDGen (run evs s).1 ≤ compIDGen s + Z.of_nat (length evs).
Proof.
  induction evs as [|[rt c] evs IH]; intros s Hu Hc Hf; [simpl; lia|].
  rewrite run_cons. simpl fst.
  pose proof (fits_cons _ _ _ _ Hu Hc Hf) as Hf'.
  destruct Hf as [Hfu Hfc]. simpl length in *.
  destruct (serve_steps rt c s) as [HU HC]; [lia..|].
  assert (userIDGen s ≤ userIDGen (serve rt c s).1 ≤ userIDGen s + 1)
    by (destruct HU as [[_ ->]|(? & _ & _ & ->)]; lia).
  assert (compIDGen s ≤ compIDGen (serve rt c s).1 ≤ compIDGen s + 1)
    by (destruct HC as [[_ ->]|(? & _ & _ & ->)]; lia).
  destruct (IH (serve rt c s).1) as [? ?]; [lia..|done|]. lia.
Qed.

Lemma fits_app_r s evs1 evs2 :
  0 ≤ userIDGen s → 0 ≤ compIDGen s →
  fits s (evs1 ++ evs2) → fits (run evs1 s).1 evs2.
Proof.
  intros Hu Hc Hf.
  destruct (run_counters evs1 s Hu Hc (fits_app_l _ _ _ Hf)) as [? ?].
  unfold fits in *. rewrite length_app in Hf. lia.
Qed.

(** ** Accounts: emails and secret codes *)

(** When the email as sent is the email of a stored account, registration
    answers 409 and stores nothing. *)
Lemma register_same_email_conflict rt r req s k u :
  Method r = MethodPost → Body r = Some req →
  blank (RegisterRequest.Name req) = false →
  blank (RegisterRequest.Email req) = false →
  users s !! k = Some u → User.Email u = RegisterRequest.Email req →
  registerHandler rt r s =
    (s, respondWithError StatusConflict "User with this email already exists").
Proof.
  intros Hm Hb Hn He Hk Heq. unfold registerHandler, decoded.
  rewrite Hm, Hb, Hn, He. simpl.
  by destruct (findUserByEmail_is_Some (usersIter rt) s _ k u Hk Heq) as [? ->].
Qed.

(** C1, evaluated where it fails.  [registerHandler] looks up the email
    as sent but stores it trimmed: after "dup@x.com" has been registered,
    " dup@x.com" passes the look-up, both calls answer 201, and accounts 2
    and 3 hold the same email; the emails of the store are not pairwise
    distinct. *)
Theorem register_trimmed_email_collides :
  StatusCode <$> (run dupEmailRun boot).2 = [StatusCreated; StatusCreated]
  ∧ User.Email <$> users (run dupEmailRun boot).1 !! 2 = Some "dup@x.com"
  ∧ User.Email <$> users (run dupEmailRun boot).1 !! 3 = Some "dup@x.com"
  ∧ ¬ emailsDistinct (run dupEmailRun boot).1.
Proof.
  assert (StatusCode <$> (run dupEmailRun boot).2 = [StatusCreated; StatusCreated]
          ∧ User.Email <$> users (run dupEmailRun boot).1 !! 2 = Some "dup@x.com"
          ∧ User.Email <$> users (run dupEmailRun boot).1 !! 3 = Some "dup@x.com")
    as (H1 & H2 & H3) by (vm_compute; done).
  repeat split; try done.
  intros Hd.
  destruct (users (run dupEmailRun boot).1 !! 2) as [u2|] eqn:E2; [|done].
  destruct (users (run dupEmailRun boot).1 !! 3) as [u3|] eqn:E3; [|done].
  apply (Hd 2 3 u2 u3 E2 E3); [done|].
  simpl in H2, H3. congruence.
Qed.

Lemma Inv_tokensDistinct s : Inv s → tokensDistinct s.
Proof.
  intros HI k1 k2 u1 u2 H1 H2 Heq.
  destruct (inv_token s HI k1 u1 H1) as [[-> E1]|[? [t1 E1]]],
           (inv_token s HI k2 u2 H2) as [[-> E2]|[? [t2 E2]]]; [done|..].
  - rewrite E1, E2 in Heq. symmetry in Heq.
    by apply Sprintf_SEC_not_admin in Heq.
  - rewrite E1, E2 in Heq. by apply Sprintf_SEC_not_admin in Heq.
  - rewrite E1, E2 in Heq. apply Sprintf_SEC_inj in Heq. lia.
Qed.

(** With pairwise distinct codes, the account found for a secret code
    does not depend on the order in which the map is ranged over. *)
Lemma findUserBySecretCode_order s code choice1 choice2 :
  tokensDistinct s →
  findUserBySecretCode choice1 s code = findUserBySecretCode choice2 s code.
Proof.
  intros Hd.
  destruct (findUserBySecretCode choice1 s code) as [[p1 u1]|] eqn:E1,
           (findUserBySecretCode choice2 s code) as [[p2 u2]|] eqn:E2;
    [| | |done].
  - apply findUserBySecretCode_Some in E1 as [H1 C1].
    apply findUserBySecretCode_Some in E2 as [H2 C2].
    assert (p1 = p2) as -> by (apply (Hd _ _ _ _ H1 H2); congruence).
    congruence.
  - apply findUserBySecretCode_Some in E1 as [H1 C1].
    by destruct (findUserBySecretCode_None _ _ _ E2 _ _ H1).
  - apply findUserBySecretCode_Some in E2 as [H2 C2].
    by destruct (findUserBySecretCode_None _ _ _ E1 _ _ H2).
Qed.

(** C2 as stated fails: the generated code is never compared with the
    codes in the store.  On [staleStore], registering at [clock0] answers
    201 with the code "SEC_1696348800_3", which account 5 holds already. *)
Lemma token_not_checked_against_store : ¬ tokenCheckedOnCreate.
Proof.
  intros H.
  set (r := post (RegisterRequest.mk "Ann" "ann@x.com")).
  destruct (createdUser (registerHandler rt0 r staleStore).2) as [u|] eqn:E;
    [|by vm_compute in E].
  pose proof (H rt0 r staleStore u E 5) as Hf.
  vm_compute in E. injection E as <-.
  by eapply Hf.
Qed.

(** C2, amended.  In every store reached from [boot] by calls that keep
    the counters within [int], the secret codes are pairwise distinct, the
    administrator's fixed code included, and the code of an account that
    [registerHandler] creates there is held by no existing account, and
    the codes stay pairwise distinct afterwards.  The code embeds the
    account counter, which only grows; no comparison with the stored codes
    takes place. *)
Theorem token_unique_by_counter evs rt r :
  fits boot (evs ++ [(rt, Register r)]) →
  tokensDistinct (run evs boot).1
  ∧ tokensDistinct (registerHandler rt r (run evs boot).1).1
  ∧ ∀ u, createdUser (registerHandler rt r (run evs boot).1).2 = Some u →
      User.SecretCode u =
        Sprintf_SEC (Unix (Now rt)) (userIDGen (run evs boot).1 + 2)
      ∧ tokenFresh (run evs boot).1 u.
Proof.
  intros Hf.
  pose proof (run_Inv _ _ Inv_boot Hf) as HI'.
  rewrite run_app in HI'. simpl in HI'.
  pose proof (run_Inv _ _ Inv_boot (fits_app_l _ _ _ Hf)) as HI.
  apply fits_app_r in Hf; [|done..].
  set (s := (run evs boot).1) in *.
  destruct (registerHandler rt r s) as [s' resp] eqn:Hreg. simpl in HI'.
  split; [by apply Inv_tokensDistinct|].
  split; [by apply Inv_tokensDistinct|].
  intros u Hu.
  destruct (registerHandler_effect rt r s) as [(_ & Hnone & _)|(req & _ & _ & Heq)].
  { rewrite Hreg in Hnone. simpl in *. congruence. }
  rewrite Hreg in Heq. injection Heq as -> ->.
  injection Hu as <-.
  destruct Hf as [Hfu _]. simpl in Hfu.
  pose proof (inv_uid s HI).
  unfold newUserOf in *. rewrite !(wrap_succ (userIDGen s)) in * by lia.
  rewrite (wrap_succ (userIDGen s + 1)) in * by lia.
  split; [simpl; f_equal; lia|].
  intros k v Hk Hcode.
  apply (inv_user_key s HI) in Hk as Hrange.
  assert (k = userIDGen s + 1); [|lia].
  eapply (Inv_tokensDistinct _ HI' k (userIDGen s + 1)); simpl.
  - rewrite lookup_insert_ne by lia. done.
  - by rewrite lookup_insert_eq.
  - done.
Qed.

(** ** Complaints: the two copies *)

Lemma filter_id_absent (l : list Complaint.t) id :
  id ∉ Complaint.ID <$> l → filter (fun c0 => Complaint.ID c0 = id) l = [].
Proof.
  induction l as [|c0 l IH]; [done|].
  rewrite fmap_cons, not_elem_of_cons. intros [Hne Hnotin].
  rewrite filter_cons_False by done. by apply IH.
Qed.

Lemma filter_unique_id (l : list Complaint.t) c :
  NoDup (Complaint.ID <$> l) → c ∈ l →
  filter (fun c0 => Complaint.ID c0 = Complaint.ID c) l = [c].
Proof.
  induction l as [|c0 l IH]; [by intros _ ?%elem_of_nil|].
  rewrite fmap_cons. intros [Hnotin Hnd]%NoDup_cons Hin.
  apply elem_of_cons in Hin as [->|Hin].
  - rewrite filter_cons_True by done. f_equal. by apply filter_id_absent.
  - rewrite filter_cons_False; [by apply IH|].
    intros Heq. apply Hnotin. rewrite Heq. by apply list_elem_of_fmap_2.
Qed.

Lemma Inv_copiesOf s id c :
  Inv s → complaints s !! id = Some c →
  ∃ owner, users s !! Complaint.UserID c = Some owner
    ∧ copiesOf id owner = [c].
Proof.
  intros HI Hc.
  destruct (inv_owner s HI id c Hc) as (owner & Ho & Hin).
  destruct (inv_comp_key s HI id c Hc) as [_ <-].
  exists owner. split; [done|].
  apply filter_unique_id; [|done]. by eapply inv_view_nodup.
Qed.

Lemma Inv_viewsAgree s : Inv s → viewsAgree s.
Proof.
  intros HI id c Hc.
  destruct (Inv_copiesOf s id c HI Hc) as (owner & Ho & Hcopies).
  by exists owner, c.
Qed.

(** C3.  In every store reached from [boot], each complaint and the one
    entry with its id in its owner's [Complaints] agree on [IsResolved]
    and [ResolvedAt]; and when [resolveComplaintHandler] answers 200 there,
    the stored complaint and the owner's entry both carry
    [IsResolved = true] and the same [ResolvedAt], the clock reading of
    the call, and the two copies agree again for every complaint of the
    new store. *)
Theorem resolve_keeps_views_in_step evs :
  fits boot evs →
  viewsAgree (run evs boot).1
  ∧ ∀ rt r, StatusCode (resolveComplaintHandler rt r (run evs boot).1).2
              = StatusOK →
      ∃ req c owner copy,
        Body r = Some req
        ∧ complaints (resolveComplaintHandler rt r (run evs boot).1).1
            !! ResolveComplaintRequest.ComplaintID req = Some c
        ∧ Data (Reply (resolveComplaintHandler rt r (run evs boot).1).2)
            = ComplaintData c
        ∧ Complaint.IsResolved c = true
        ∧ Complaint.ResolvedAt c = getCurrentTime (Now rt)
        ∧ users (resolveComplaintHandler rt r (run evs boot).1).1
            !! Complaint.UserID c = Some owner
        ∧ copiesOf (ResolveComplaintRequest.ComplaintID req) owner = [copy]
        ∧ Complaint.IsResolved copy = true
        ∧ Complaint.ResolvedAt copy = getCurrentTime (Now rt)
        ∧ viewsAgree (resolveComplaintHandler rt r (run evs boot).1).1.
Proof.
  intros Hf. pose proof (run_Inv _ _ Inv_boot Hf) as HI.
  set (s := (run evs boot).1) in *.
  split; [by apply Inv_viewsAgree|].
  intros rt r Hok.
  destruct (resolveComplaintHandler_effect rt r s)
    as [(_ & Hne)|(req & c & Hb & Hc & Hres & Heq)]; [done|].
  rewrite Heq. simpl.
  pose proof (Inv_resolve _ _ _ _ HI (getCurrentTime_nonempty (Now rt)) Hc)
    as HI'.
  set (s' := Build_Storage _ _ _ _) in *.
  assert (complaints s' !! ResolveComplaintRequest.ComplaintID req
          = Some (resolved (getCurrentTime (Now rt)) c)) as Hc'
    by apply lookup_insert_eq.
  destruct (Inv_copiesOf s' _ _ HI' Hc') as (owner & Ho & Hcopies).
  exists req, (resolved (getCurrentTime (Now rt)) c), owner,
    (resolved (getCurrentTime (Now rt)) c).
  repeat split; try done. by apply Inv_viewsAgree.
Qed.

(** ** Resolving *)

(** C4.  For every store and every resolve request that passes the
    guards before the store is looked at (a decoded POST with a positive
    id, sent by an administrator): the answer is [NotFound] exactly when
    no complaint is stored under the id, [AlreadyResolved] exactly when
    the stored complaint has [IsResolved] set, and 200 exactly when it is
    stored and not yet resolved; when the answer is not 200 the storage
    (complaints and users alike) is the one before the call. *)
Theorem resolve_outcomes rt r req s :
  resolveAdmitted rt r req s →
  ((resolveComplaintHandler rt r s).2 = NotFound
     ↔ complaints s !! ResolveComplaintRequest.ComplaintID req = None)
  ∧ ((resolveComplaintHandler rt r s).2 = AlreadyResolved
     ↔ ∃ c, complaints s !! ResolveComplaintRequest.ComplaintID req = Some c
            ∧ Complaint.IsResolved c = true)
  ∧ (StatusCode (resolveComplaintHandler rt r s).2 = StatusOK
     ↔ ∃ c, complaints s !! ResolveComplaintRequest.ComplaintID req = Some c
            ∧ Complaint.IsResolved c = false)
  ∧ (StatusCode (resolveComplaintHandler rt r s).2 ≠ StatusOK
     → (resolveComplaintHandler rt r s).1 = s).
Proof.
  intros (Hm & Hb & Hcode & Hid & p & user & Hfind & Hadmin).
  unfold resolveComplaintHandler, decoded.
  apply Z.leb_gt in Hid.
  rewrite Hm, Hb, Hcode, Hid, Hfind, Hadmin. simpl.
  destruct (complaints s !! ResolveComplaintRequest.ComplaintID req)
    as [c|] eqn:Hc.
  - destruct (Complaint.IsResolved c) eqn:Hres; simpl.
    + repeat split; try done.
      * by eexists.
      * by intros (c0 & [= <-] & ?); congruence.
    + repeat split; try done.
      * by intros (c0 & [= <-] & ?); congruence.
      * by eexists.
  - simpl. repeat split; try done.
    + by intros (c0 & ? & _).
    + by intros (c0 & ? & _).
Qed.

(** ** The resolved flag *)

Lemma serve_keeps_resolved rt call s id c :
  Inv s → compIDGen s + 1 ≤ maxInt →
  complaints s !! id = Some c → Complaint.IsResolved c = true →
  complaints (serve rt call s).1 !! id = Some c.
Proof.
  intros HI Hb Hc Hres. pose proof (inv_cid s HI).
  destruct call as [r|r|r|r|r|r|r]; simpl.
  - destruct (registerHandler_effect rt r s)
      as [(-> & _)|(req & _ & _ & ->)]; done.
  - by rewrite loginHandler_state.
  - destruct (submitComplaintHandler_effect rt r s)
      as [(-> & _)|(req & p & u & _ & _ & _ & ->)]; [done|]. simpl.
    rewrite lookup_insert_ne; [done|]. rewrite wrap_succ by lia.
    apply (inv_comp_key s HI) in Hc. lia.
  - by rewrite getAllComplaintsForUserHandler_state.
  - by rewrite getAllComplaintsForAdminHandler_state.
  - by rewrite viewComplaintHandler_state.
  - destruct (resolveComplaintHandler_effect rt r s)
      as [(-> & _)|(req & c0 & _ & Hc0 & Hres0 & ->)]; [done|]. simpl.
    rewrite lookup_insert_ne; [done|]. intros Heq. rewrite Heq in Hc0.
    congruence.
Qed.

Lemma run_keeps_resolved evs : ∀ s id c,
  Inv s → fits s evs →
  complaints s !! id = Some c → Complaint.IsResolved c = true →
  complaints (run evs s).1 !! id = Some c.
Proof.
  induction evs as [|[rt call] evs IH]; intros s id c HI Hf Hc Hres; [done|].
  rewrite run_cons. simpl fst.
  pose proof (inv_uid s HI). pose proof (inv_cid s HI).
  assert (userIDGen s + 2 ≤ maxInt ∧ compIDGen s + 1 ≤ maxInt) as [? ?]
    by (destruct Hf; simpl length in *; lia).
  apply IH; [by apply serve_Inv|apply fits_cons; by (lia || done)| |done].
  by apply serve_keeps_resolved.
Qed.

(** C5.  Along every run from [boot]: in the store reached, a complaint
    has a non-empty [ResolvedAt] exactly when [IsResolved] is set; a
    complaint that is resolved there is found unchanged, hence still
    resolved and with the same [ResolvedAt], after any further calls; a
    complaint that [submitComplaintHandler] creates is stored with
    [IsResolved = false] and an empty [ResolvedAt]; a complaint that
    [resolveComplaintHandler] resolves was unresolved before and is
    stored with [IsResolved = true] and a non-empty [ResolvedAt]. *)
Theorem resolved_is_permanent evs1 evs2 :
  fits boot (evs1 ++ evs2) →
  resolvedAtIffResolved (run evs1 boot).1
  ∧ (∀ id c, complaints (run evs1 boot).1 !! id = Some c →
       Complaint.IsResolved c = true →
       complaints (run (evs1 ++ evs2) boot).1 !! id = Some c)
  ∧ (∀ rt r c,
       createdComplaint (submitComplaintHandler rt r (run evs1 boot).1).2
         = Some c →
       complaints (submitComplaintHandler rt r (run evs1 boot).1).1
         !! Complaint.ID c = Some c
       ∧ Complaint.IsResolved c = false ∧ Complaint.ResolvedAt c = "")
  ∧ (∀ rt r,
       StatusCode (resolveComplaintHandler rt r (run evs1 boot).1).2
         = StatusOK →
       ∃ req c0 c,
         Body r = Some req
         ∧ complaints (run evs1 boot).1
             !! ResolveComplaintRequest.ComplaintID req = Some c0
         ∧ Complaint.IsResolved c0 = false ∧ Complaint.ResolvedAt c0 = ""
         ∧ complaints (resolveComplaintHandler rt r (run evs1 boot).1).1
             !! ResolveComplaintRequest.ComplaintID req = Some c
         ∧ Complaint.IsResolved c = true ∧ Complaint.ResolvedAt c ≠ "").
Proof.
  intros Hf.
  pose proof (run_Inv _ _ Inv_boot (fits_app_l _ _ _ Hf)) as HI.
  assert (fits (run evs1 boot).1 evs2) as Hf2 by (by apply fits_app_r).
  rewrite run_app. simpl fst.
  set (s := (run evs1 boot).1) in *.
  split; [exact (inv_resolved s HI)|].
  split; [intros id c Hc Hres; by apply run_keeps_resolved|].
  split.
  - intros rt r c Hcr.
    destruct (submitComplaintHandler_effect rt r s)
      as [(_ & Hnone & _)|(req & p & u & _ & _ & _ & Heq)]; [congruence|].
    rewrite Heq in *. injection Hcr as <-. simpl.
    by rewrite lookup_insert_eq.
  - intros rt r Hok.
    destruct (resolveComplaintHandler_effect rt r s)
      as [(_ & Hne)|(req & c0 & Hb & Hc & Hres & Heq)]; [done|].
    rewrite Heq. simpl.
    exists req, c0, (resolved (getCurrentTime (Now rt)) c0).
    repeat split; try done.
    + destruct (decide (Complaint.ResolvedAt c0 = "")) as [|Hne]; [done|].
      apply (inv_resolved s HI _ _ Hc) in Hne. congruence.
    + by rewrite lookup_insert_eq.
    + apply getCurrentTime_nonempty.
Qed.

(** ** Identifiers *)




(** ** Listings *)

Lemma getAllComplaintsForUserHandler_data rt r s l :
  Data (Reply (getAllComplaintsForUserHandler rt r s).2) = ComplaintsData l →
  ∃ req p user,
    Body r = Some req
    ∧ findUserBySecretCode (usersIter rt) s
        (GetComplaintsRequest.SecretCode req) = Some (p, user)
    ∧ l = filter (fun c => Complaint.UserID c = User.ID user)
            (mapRange (complaintsIter rt) (complaints s)).*2.
Proof.
  unfold getAllComplaintsForUserHandler, decoded.
  destruct (negb _); [done|].
  destruct (Body r) as [req|]; [|done].
  destruct (blank _); [done|].
  destruct (findUserBySecretCode _ _ _) as [[p user]|] eqn:E; [|done].
  simpl. intros [= <-]. by exists req, p, user.
Qed.

Lemma getAllComplaintsForAdminHandler_data rt r s l :
  Data (Reply (getAllComplaintsForAdminHandler rt r s).2) = ComplaintsData l →
  l = (mapRange (complaintsIter rt) (complaints s)).*2.
Proof.
  unfold getAllComplaintsForAdminHandler, decoded.
  destruct (negb _); [done|].
  destruct (Body r) as [req|]; [|done].
  destruct (blank _); [done|].
  destruct (findUserBySecretCode _ _ _) as [[p user]|] eqn:E; [|done].
  destruct (negb _); [done|].
  simpl. by intros [= <-].
Qed.

Lemma listing_Permutation choice s uid :
  filter (fun c => Complaint.UserID c = uid)
    (mapRange choice (complaints s)).*2 ≡ₚ recordsOf s uid.
Proof. unfold recordsOf. by rewrite mapRange_Permutation. Qed.

Lemma elem_of_recordsOf s uid c :
  c ∈ recordsOf s uid
  ↔ (∃ id, complaints s !! id = Some c) ∧ Complaint.UserID c = uid.
Proof.
  unfold recordsOf. rewrite list_elem_of_filter, list_elem_of_fmap.
  split.
  - intros [Hu ([id c0] & -> & Hin%elem_of_map_to_list)]. eauto.
  - intros [[id Hc] Hu]. split; [done|].
    exists (id, c). split; [done|]. by apply elem_of_map_to_list.
Qed.

(** C7 as stated fails: the listing follows the iteration order of the
    [complaints] map, which is not fixed by the store.  In the store
    reached by [sampleRun], the same request of the same account is
    answered with the complaints 2, 1 when the runtime ranges from the
    first entry and with 1, 2 when it ranges from the second; likewise
    for the administrator's listing. *)
Lemma listing_order_varies :
  listedIDs (getAllComplaintsForUserHandler rt0 listMine
               (run sampleRun boot).1).2 = [2; 1]
  ∧ listedIDs (getAllComplaintsForUserHandler rt1 listMine
                 (run sampleRun boot).1).2 = [1; 2]
  ∧ listedIDs (getAllComplaintsForAdminHandler rt0 listAll
                 (run sampleRun boot).1).2 = [2; 1]
  ∧ listedIDs (getAllComplaintsForAdminHandler rt1 listAll
                 (run sampleRun boot).1).2 = [1; 2].
Proof. by vm_compute. Qed.

(** C7, amended.  In a store reached from [boot], any two answers of
    [getAllComplaintsForUserHandler] to the same request list the same
    complaints, each as often, in an order that may differ: both are
    permutations of the stored complaints whose [UserID] is the id of the
    account holding the secret code, each stored complaint listed once.
    Likewise any two answers of [getAllComplaintsForAdminHandler] are
    permutations of all the stored complaints. *)
Theorem listing_is_permutation evs :
  fits boot evs →
  (∀ rta rtb r la lb,
     Data (Reply (getAllComplaintsForUserHandler rta r (run evs boot).1).2)
       = ComplaintsData la →
     Data (Reply (getAllComplaintsForUserHandler rtb r (run evs boot).1).2)
       = ComplaintsData lb →
     la ≡ₚ lb
     ∧ ∃ req p user,
         Body r = Some req
         ∧ users (run evs boot).1 !! p = Some user
         ∧ User.SecretCode user = GetComplaintsRequest.SecretCode req
         ∧ la ≡ₚ recordsOf (run evs boot).1 (User.ID user))
  ∧ (∀ rta rtb ra rb la lb,
       Data (Reply (getAllComplaintsForAdminHandler rta ra (run evs boot).1).2)
         = ComplaintsData la →
       Data (Reply (getAllComplaintsForAdminHandler rtb rb (run evs boot).1).2)
         = ComplaintsData lb →
       la ≡ₚ lb ∧ la ≡ₚ (map_to_list (complaints (run evs boot).1)).*2)
  ∧ NoDup (map_to_list (complaints (run evs boot).1)).*2.
Proof.
  intros Hf. pose proof (run_Inv _ _ Inv_boot Hf) as HI.
  set (s := (run evs boot).1) in *.
  split_and!.
  - intros rta rtb r la lb
      (req & p & u & Hb & [Hp Hcode]%findUserBySecretCode_Some & ->)
          %getAllComplaintsForUserHandler_data
      (req' & p' & u' & Hb' & [Hp' Hcode']%findUserBySecretCode_Some & ->)
          %getAllComplaintsForUserHandler_data.
    assert (req' = req) as -> by congruence.
    assert (p' = p) as ->
      by (apply (Inv_tokensDistinct s HI _ _ _ _ Hp' Hp); congruence).
    assert (u' = u) as -> by congruence.
    split; [by rewrite !listing_Permutation|].
    exists req, p, u. split_and!; try done. apply listing_Permutation.
  - intros rta rtb ra rb la lb
      ->%getAllComplaintsForAdminHandler_data
      ->%getAllComplaintsForAdminHandler_data.
    by rewrite !mapRange_Permutation.
  - apply NoDup_fmap_2_strong; [|apply NoDup_map_to_list].
    intros [k1 c1] [k2 c2] H1%elem_of_map_to_list H2%elem_of_map_to_list.
    simpl. intros <-.
    apply (inv_comp_key s HI) in H1 as [_ <-].
    apply (inv_comp_key s HI) in H2 as [_ <-]. done.
Qed.

(** C9.  For every store: when [getAllComplaintsForUserHandler] lists
    [lu] for the account [user] that holds the secret code, and
    [getAllComplaintsForAdminHandler] lists [la] on the same store, then
    [lu] is, as a multiset, [la] filtered to the complaints whose
    [UserID] is the id of [user]; and the complaints of [lu] are the
    values of the [complaints] map with that [UserID], whatever the
    [Complaints] slices of the accounts hold. *)
Theorem user_listing_filters_all_records rtu rta ru ra req p user s lu la :
  Body ru = Some req →
  findUserBySecretCode (usersIter rtu) s (GetComplaintsRequest.SecretCode req)
    = Some (p, user) →
  Data (Reply (getAllComplaintsForUserHandler rtu ru s).2) = ComplaintsData lu →
  Data (Reply (getAllComplaintsForAdminHandler rta ra s).2) = ComplaintsData la →
  lu ≡ₚ filter (fun c => Complaint.UserID c = User.ID user) la
  ∧ ∀ c, c ∈ lu
      ↔ (∃ id, complaints s !! id = Some c)
        ∧ Complaint.UserID c = User.ID user.
Proof.
  intros Hb Hfind
    (req' & p' & u' & Hb' & Hfind' & ->)%getAllComplaintsForUserHandler_data
    ->%getAllComplaintsForAdminHandler_data.
  assert (req' = req) as -> by congruence.
  assert (u' = user) as -> by congruence.
  split.
  - by rewrite !mapRange_Permutation.
  - intros c. by rewrite listing_Permutation, elem_of_recordsOf.
Qed.

(** ** Submitting and viewing *)

(** C8.  For a decoded POST submission: when the rating is below 1 or
    above 10 the answer is 400, nothing is created, the storage is left
    as it was, and the answer is the same whatever the storage holds (it
    is [RatingRejected] when the text fields are present); when the
    rating is within 1..10, bounds included, the text fields are present
    and the secret code is that of an account, the answer is 201 and a
    complaint with that rating is stored, both in the [complaints] map
    and at the end of the caller's [Complaints]. *)
Theorem rating_range_checked rt r req s :
  Method r = MethodPost → Body r = Some req →
  (¬ 1 ≤ SubmitComplaintRequest.Rating req ≤ 10 →
     (submitComplaintHandler rt r s).1 = s
     ∧ StatusCode (submitComplaintHandler rt r s).2 = StatusBadRequest
     ∧ createdComplaint (submitComplaintHandler rt r s).2 = None
     ∧ (∀ s', (submitComplaintHandler rt r s').2
               = (submitComplaintHandler rt r s).2)
     ∧ (fieldsPresent req →
          (submitComplaintHandler rt r s).2 = RatingRejected))
  ∧ (1 ≤ SubmitComplaintRequest.Rating req ≤ 10 → fieldsPresent req →
     ∀ p user,
       findUserBySecretCode (usersIter rt) s
         (SubmitComplaintRequest.SecretCode req) = Some (p, user) →
       ∃ c, (submitComplaintHandler rt r s).2
              = respondWithJSON StatusCreated
                  (success "Complaint submitted successfully"
                     (ComplaintData c))
            ∧ Complaint.Rating c = SubmitComplaintRequest.Rating req
            ∧ Complaint.IsResolved c = false
            ∧ complaints (submitComplaintHandler rt r s).1
                !! Complaint.ID c = Some c
            ∧ User.Complaints
                <$> users (submitComplaintHandler rt r s).1 !! p
              = Some (User.Complaints user ++ [c])).
Proof.
  intros Hm Hb. unfold submitComplaintHandler, decoded, fieldsPresent.
  rewrite Hm, Hb. simpl. split.
  - intros Hout.
    assert ((SubmitComplaintRequest.Rating req <? 1)
            || (SubmitComplaintRequest.Rating req >? 10) = true) as Hr.
    { apply orb_true_iff. rewrite Z.ltb_lt, Z.gtb_gt. lia. }
    split_and!.
    + rewrite Hr. by repeat case_match.
    + rewrite Hr. by repeat case_match.
    + rewrite Hr. by repeat case_match.
    + intros s'. rewrite Hr. by repeat case_match.
    + intros (-> & -> & ->). by rewrite Hr.
  - intros Hin (-> & -> & ->) p user ->.
    assert ((SubmitComplaintRequest.Rating req <? 1)
            || (SubmitComplaintRequest.Rating req >? 10) = false) as ->.
    { apply orb_false_iff. rewrite Z.ltb_ge, Z.gtb_ltb, Z.ltb_ge. lia. }
    eexists. split; [done|]. simpl. rewrite !lookup_insert_eq. done.
Qed.

(** C10.  For a view request that passes the guards before the
    complaint is looked up, sent with the secret code of [user]: when a
    complaint is stored under the id, the answer is that complaint
    exactly when [user] is an administrator or the complaint's [UserID]
    is the id of [user], and the 403 [ViewDenied] otherwise; when none is
    stored the answer is [NotFound], administrator or not.  The storage
    is left as it was. *)
Theorem view_permission rt r req s user :
  viewAdmitted rt r req s user →
  (∀ c, complaints s !! ViewComplaintRequest.ComplaintID req = Some c →
     ((viewComplaintHandler rt r s).2 = Viewed c
        ↔ User.IsAdmin user = true ∨ Complaint.UserID c = User.ID user)
     ∧ ((viewComplaintHandler rt r s).2 = ViewDenied
        ↔ ¬ (User.IsAdmin user = true ∨ Complaint.UserID c = User.ID user)))
  ∧ (complaints s !! ViewComplaintRequest.ComplaintID req = None →
       (viewComplaintHandler rt r s).2 = NotFound)
  ∧ (viewComplaintHandler rt r s).1 = s.
Proof.
  intros (Hm & Hb & Hcode & Hid%Z.leb_gt & p & Hfind).
  split_and!; [| |apply viewComplaintHandler_state].
  - intros c Hc. unfold viewComplaintHandler, decoded.
    rewrite Hm, Hb, Hcode, Hid, Hfind, Hc. simpl.
    destruct (User.IsAdmin user); simpl.
    + split; split; [by left|done|discriminate|].
      intros H. destruct H. by left.
    + destruct (Z.eqb_spec (Complaint.UserID c) (User.ID user)); simpl.
      * split; split; [by right|done|discriminate|].
        intros H. destruct H. by right.
      * split; split; [discriminate| |by intros _ [?|?]|done].
        by intros [?|?].
  - intros Hc. unfold viewComplaintHandler, decoded.
    by rewrite Hm, Hb, Hcode, Hid, Hfind, Hc.
Qed.

(** ** The theorems at sample inputs *)

(** C2 at [dupEmailRun] followed by Ann's registration. *)
Lemma token_unique_by_counter_witness :
  fits boot (dupEmailRun ++ [(rt0, Register registerAnn)])
  ∧ tokensDistinct (run dupEmailRun boot).1
  ∧ tokensDistinct (registerHandler rt0 registerAnn (run dupEmailRun boot).1).1.
Proof.
  assert (fits boot (dupEmailRun ++ [(rt0, Register registerAnn)])) as Hf
    by in_range.
  split; [exact Hf|].
  destruct (token_unique_by_counter dupEmailRun rt0 registerAnn Hf)
    as (H1 & H2 & _).
  split; [exact H1|exact H2].
Defined.

(** C3 at [sampleRun], then resolving the second complaint. *)
Lemma resolve_keeps_views_in_step_witness :
  fits boot sampleRun
  ∧ viewsAgree (run sampleRun boot).1
  ∧ viewsAgree
      (resolveComplaintHandler rt0 resolveSecond (run sampleRun boot).1).1.
Proof.
  assert (fits boot sampleRun) as Hf by in_range.
  split; [exact Hf|].
  destruct (resolve_keeps_views_in_step sampleRun Hf) as [Hv Hstep].
  split; [exact Hv|].
  destruct (Hstep rt0 resolveSecond) as (req & c & owner & copy & H);
    [vm_compute; reflexivity|].
  apply H.
Defined.

(** C4 at [sampleRun], resolving the first complaint once more. *)
Lemma resolve_outcomes_witness :
  resolveAdmitted rt0 resolveAgain
    (ResolveComplaintRequest.mk "ADMIN_SECRET_123" 1) (run sampleRun boot).1
  ∧ (∃ c, complaints (run sampleRun boot).1 !! 1 = Some c
          ∧ Complaint.IsResolved c = true)
  ∧ (resolveComplaintHandler rt0 resolveAgain (run sampleRun boot).1).1
    = (run sampleRun boot).1.
Proof.
  assert (resolveAdmitted rt0 resolveAgain
            (ResolveComplaintRequest.mk "ADMIN_SECRET_123" 1)
            (run sampleRun boot).1) as Ha.
  { repeat (split; [reflexivity|]).
    exists 1, adminUser. split; vm_compute; reflexivity. }
  split; [exact Ha|].
  destruct (resolve_outcomes _ _ _ _ Ha) as (_ & [Hres _] & _ & Hsame).
  split.
  - apply Hres. vm_compute; reflexivity.
  - apply Hsame. vm_compute; discriminate.
Defined.

(** C5 at [sampleRun] followed by [annCalls]. *)
Lemma resolved_is_permanent_witness :
  fits boot (sampleRun ++ annCalls)
  ∧ resolvedAtIffResolved (run sampleRun boot).1
  ∧ ∀ c, complaints (run sampleRun boot).1 !! 1 = Some c →
      Complaint.IsResolved c = true →
      complaints (run (sampleRun ++ annCalls) boot).1 !! 1 = Some c.
Proof.
  assert (fits boot (sampleRun ++ annCalls)) as Hf by in_range.
  split; [exact Hf|].
  destruct (resolved_is_permanent sampleRun annCalls Hf) as (H1 & H2 & _).
  split; [exact H1|exact (H2 1)].
Defined.


(** C7 at [sampleRun], for the two iteration orders [rt0] and [rt1]:
    the two listings differ and are permutations of each other. *)
Lemma listing_is_permutation_witness :
  fits boot sampleRun
  ∧ ∃ la lb,
      Data (Reply (getAllComplaintsForUserHandler rt0 listMine
                     (run sampleRun boot).1).2) = ComplaintsData la
      ∧ Data (Reply (getAllComplaintsForUserHandler rt1 listMine
                       (run sampleRun boot).1).2) = ComplaintsData lb
      ∧ la ≠ lb ∧ la ≡ₚ lb.
Proof.
  assert (fits boot sampleRun) as Hf by in_range.
  split; [exact Hf|].
  destruct (listing_is_permutation sampleRun Hf) as (H & _).
  destruct (Data (Reply (getAllComplaintsForUserHandler rt0 listMine
                           (run sampleRun boot).1).2))
    as [| | |la] eqn:Ea; try (vm_compute in Ea; discriminate).
  destruct (Data (Reply (getAllComplaintsForUserHandler rt1 listMine
                           (run sampleRun boot).1).2))
    as [| | |lb] eqn:Eb; try (vm_compute in Eb; discriminate).
  exists la, lb. split; [reflexivity|]. split; [reflexivity|]. split.
  - intros Heq. vm_compute in Ea, Eb. rewrite <- Heq in Eb.
    rewrite <- Ea in Eb. discriminate.
  - exact (proj1 (H rt0 rt1 listMine la lb Ea Eb)).
Defined.

(** C8 at the bounds: ratings 0 and 11 are turned down, 1 and 10 are
    stored. *)
Lemma rating_range_checked_witness :
  Method (submitWithRating 0) = MethodPost
  ∧ (submitComplaintHandler rt0 (submitWithRating 0) boot).2 = RatingRejected
  ∧ (submitComplaintHandler rt0 (submitWithRating 11) boot).2 = RatingRejected
  ∧ (submitComplaintHandler rt0 (submitWithRating 0) boot).1 = boot
  ∧ (submitComplaintHandler rt0 (submitWithRating 11) boot).1 = boot
  ∧ (∃ c, complaints (submitComplaintHandler rt0 (submitWithRating 1) boot).1
            !! Complaint.ID c = Some c ∧ Complaint.Rating c = 1)
  ∧ (∃ c, complaints (submitComplaintHandler rt0 (submitWithRating 10) boot).1
            !! Complaint.ID c = Some c ∧ Complaint.Rating c = 10).
Proof.
  assert (∀ n, fieldsPresent
                 (SubmitComplaintRequest.mk "ADMIN_SECRET_123" "Lift"
                    "Out of order" n)) as Hp
    by (intros n; repeat split; vm_compute; reflexivity).
  split; [reflexivity|].
  destruct (rating_range_checked rt0 (submitWithRating 0) _ boot
              eq_refl eq_refl) as [H0 _].
  destruct (rating_range_checked rt0 (submitWithRating 11) _ boot
              eq_refl eq_refl) as [H11 _].
  destruct (rating_range_checked rt0 (submitWithRating 1) _ boot
              eq_refl eq_refl) as [_ H1].
  destruct (rating_range_checked rt0 (submitWithRating 10) _ boot
              eq_refl eq_refl) as [_ H10].
  destruct H0 as (S0 & _ & _ & _ & R0); [simpl; lia|].
  destruct H11 as (S11 & _ & _ & _ & R11); [simpl; lia|].
  destruct (H1 ltac:(simpl; lia) (Hp 1) 1 adminUser)
    as (c1 & _ & E1 & _ & L1 & _); [vm_compute; reflexivity|].
  destruct (H10 ltac:(simpl; lia) (Hp 10) 1 adminUser)
    as (c10 & _ & E10 & _ & L10 & _); [vm_compute; reflexivity|].
  split; [exact (R0 (Hp 0))|].
  split; [exact (R11 (Hp 11))|].
  split; [exact S0|]. split; [exact S11|].
  split; [exists c1; split; [exact L1|exact E1]|].
  exists c10. split; [exact L10|exact E10].
Defined.

(** C9 at [sampleRun]: Bo's listing against the administrator's, the
    two taken in different iteration orders. *)
Lemma user_listing_filters_all_records_witness :
  ∃ p user lu la,
    findUserBySecretCode (usersIter rt1) (run sampleRun boot).1
      "SEC_1696348800_3" = Some (p, user)
    ∧ Data (Reply (getAllComplaintsForUserHandler rt1 listMine
                     (run sampleRun boot).1).2) = ComplaintsData lu
    ∧ Data (Reply (getAllComplaintsForAdminHandler rt0 listAll
                     (run sampleRun boot).1).2) = ComplaintsData la
    ∧ lu ≡ₚ filter (fun c => Complaint.UserID c = User.ID user) la.
Proof.
  destruct (findUserBySecretCode (usersIter rt1) (run sampleRun boot).1
              "SEC_1696348800_3") as [[p user]|] eqn:E;
    [|vm_compute in E; discriminate].
  destruct (Data (Reply (getAllComplaintsForUserHandler rt1 listMine
                           (run sampleRun boot).1).2))
    as [| | |lu] eqn:Eu; try (vm_compute in Eu; discriminate).
  destruct (Data (Reply (getAllComplaintsForAdminHandler rt0 listAll
                           (run sampleRun boot).1).2))
    as [| | |la] eqn:Ea; try (vm_compute in Ea; discriminate).
  exists p, user, lu, la. repeat (split; [reflexivity|]).
  exact (proj1 (user_listing_filters_all_records rt1 rt0 listMine listAll
                  (GetComplaintsRequest.mk "SEC_1696348800_3") p user
                  (run sampleRun boot).1 lu la eq_refl E Eu Ea)).
Defined.

(** C10 at [sampleRunAnn]: Ann, who is no administrator, asks for a
    complaint that does not exist. *)
Lemma view_permission_witness :
  ∃ user,
    viewAdmitted rt0 (viewAs "SEC_1696348800_4" 99)
      (ViewComplaintRequest.mk "SEC_1696348800_4" 99)
      (run sampleRunAnn boot).1 user
    ∧ User.IsAdmin user = false
    ∧ (viewComplaintHandler rt0 (viewAs "SEC_1696348800_4" 99)
         (run sampleRunAnn boot).1).2 = NotFound.
Proof.
  destruct (findUserBySecretCode (usersIter rt0) (run sampleRunAnn boot).1
              "SEC_1696348800_4") as [[p user]|] eqn:E;
    [|vm_compute in E; discriminate].
  assert (viewAdmitted rt0 (viewAs "SEC_1696348800_4" 99)
            (ViewComplaintRequest.mk "SEC_1696348800_4" 99)
            (run sampleRunAnn boot).1 user) as Ha.
  { repeat (split; [reflexivity|]). exists p. exact E. }
  exists user. split; [exact Ha|]. split.
  - vm_compute in E. injection E as _ <-. reflexivity.
  - destruct (view_permission _ _ _ _ _ Ha) as (_ & Hnone & _).
    apply Hnone. vm_compute; reflexivity.
Defined.

(** * Further properties of the handlers *)

(** ** Blank strings *)

Lemma dropPrefix_Some p : ∀ s r, dropPrefix p s = Some r → s = p +:+ r.
Proof.
  induction p as [|a p IH]; intros s r; simpl.
  - by intros [= ->].
  - destruct s as [|b s]; [done|].
    destruct (Ascii.eqb_spec a b) as [->|]; [|done].
    intros H. by rewrite (IH _ _ H).
Qed.

Lemma dropSpace_Some encs s r :
  dropSpace encs s = Some r → ∃ e, e ∈ encs ∧ s = e +:+ r.
Proof.
  induction encs as [|e encs IH]; simpl; [done|].
  destruct (dropPrefix e s) as [r'|] eqn:E.
  - intros [= ->]. exists e. split; [left|]. by apply dropPrefix_Some.
  - intros (e' & ? & ?)%IH. exists e'. split; [by right|done].
Qed.

Lemma occurs_trimLeading c encs fuel : ∀ s,
  (∀ e, e ∈ encs → occurs c e = false) →
  occurs c (trimLeading fuel encs s) = occurs c s.
Proof.
  induction fuel as [|fuel IH]; intros s Henc; simpl; [done|].
  destruct (dropSpace encs s) as [r|] eqn:E; [|done].
  apply dropSpace_Some in E as (e & He & ->).
  by rewrite IH, occurs_app, (Henc e He).
Qed.

Lemma occurs_rev_app c s1 : ∀ s2,
  occurs c (String.rev_app s1 s2) = occurs c s1 || occurs c s2.
Proof.
  induction s1 as [|a s1 IH]; intros s2; simpl; [done|].
  rewrite IH. simpl. by destruct (Ascii.eqb a c), (occurs c s1).
Qed.

Lemma occurs_rev c s : occurs c (String.rev s) = occurs c s.
Proof. unfold String.rev. rewrite occurs_rev_app. simpl. by rewrite orb_false_r. Qed.

Lemma solid_spec c e : solid c = true → e ∈ whiteSpace → occurs c e = false.
Proof.
  unfold solid. rewrite forallb_forall. intros H He.
  apply list_elem_of_In, H in He. by apply negb_true_iff.
Qed.

(** [strings.TrimSpace] keeps every byte that is part of no white space
    encoding. *)
Lemma occurs_TrimSpace c s :
  solid c = true → occurs c (TrimSpace s) = occurs c s.
Proof.
  intros Hc. unfold TrimSpace, TrimRight, TrimLeft.
  rewrite occurs_rev, occurs_trimLeading, occurs_rev, occurs_trimLeading.
  - done.
  - intros e. by apply solid_spec.
  - intros e (e0 & -> & He)%list_elem_of_fmap.
    rewrite occurs_rev. by apply solid_spec.
Qed.

Lemma not_blank c s : solid c = true → occurs c s = true → blank s = false.
Proof.
  intros Hc Ho. unfold blank. apply String.eqb_neq. intros H.
  rewrite <- (occurs_TrimSpace c s Hc), H in Ho. done.
Qed.

Lemma Sprintf_SEC_not_blank a b : blank (Sprintf_SEC a b) = false.
Proof. by apply (not_blank "S"). Qed.

(** ** Logging in *)

Lemma findUserBySecretCode_unknown choice s code :
  unknownCode s code → findUserBySecretCode choice s code = None.
Proof.
  intros Hu.
  destruct (findUserBySecretCode choice s code) as [[p u]|] eqn:E; [|done].
  apply findUserBySecretCode_Some in E as [Hp Hc]. by destruct (Hu p u Hp).
Qed.

(** X1.  For a decoded POST login with a non-blank secret code, on any
    store: the answer is 200 exactly when some account holds the code,
    and then the account returned is a stored account holding it; the
    answer is [Unauthorized] exactly when no account holds it. *)
Theorem login_outcomes rt r req s :
  Method r = MethodPost → Body r = Some req →
  blank (LoginRequest.SecretCode req) = false →
  (StatusCode (loginHandler rt r s).2 = StatusOK
     ↔ ∃ k u, users s !! k = Some u
              ∧ User.SecretCode u = LoginRequest.SecretCode req)
  ∧ ((loginHandler rt r s).2 = Unauthorized
     ↔ unknownCode s (LoginRequest.SecretCode req))
  ∧ (∀ u, Data (Reply (loginHandler rt r s).2) = UserData u →
       StatusCode (loginHandler rt r s).2 = StatusOK
       ∧ User.SecretCode u = LoginRequest.SecretCode req
       ∧ ∃ k, users s !! k = Some u).
Proof.
  intros Hm Hb Hcode. unfold loginHandler, decoded.
  rewrite Hm, Hb, Hcode. simpl.
  destruct (findUserBySecretCode _ _ _) as [[p user]|] eqn:E; simpl.
  - apply findUserBySecretCode_Some in E as [Hp Hc]. split_and!.
    + split; [eauto|done].
    + split; [done|]. intros Hu. by destruct (Hu p user Hp).
    + intros u [= <-]. eauto.
  - pose proof (findUserBySecretCode_None _ _ _ E) as Hn. split_and!.
    + split; [done|]. intros (k & u & Hk & Hc). by destruct (Hn k u Hk).
    + done.
    + done.
Qed.

(** ** Errors *)

(** X2.  Whatever the call and the store: the [Success] flag is set
    exactly on the answers 200 and 201 and every other answer has a status
    of 400 or above; an answer without [Success] carries an error message
    and no data, and leaves the storage as it was. *)
Theorem errors_change_nothing rt c s :
  (Success (Reply (serve rt c s).2) = true
     ↔ StatusCode (serve rt c s).2 = StatusOK
       ∨ StatusCode (serve rt c s).2 = StatusCreated)
  ∧ (Success (Reply (serve rt c s).2) = false
     → 400 ≤ StatusCode (serve rt c s).2
       ∧ Data (Reply (serve rt c s).2) = NoData
       ∧ Error (Reply (serve rt c s).2) ≠ ""
       ∧ (serve rt c s).1 = s).
Proof.
  destruct c as [r|r|r|r|r|r|r]; simpl;
    [unfold registerHandler|unfold loginHandler
    |unfold submitComplaintHandler|unfold getAllComplaintsForUserHandler
    |unfold getAllComplaintsForAdminHandler|unfold viewComplaintHandler
    |unfold resolveComplaintHandler]; unfold decoded;
    repeat case_match; simpl;
    (split; [split; [by auto|by intros [?|?]]|]); try done;
    by (intros _; split_and!).
Qed.

(** X3.  A call that carries a secret code held by no account is turned
    down, whatever the handler: the answer has no [Success] and no data,
    and the storage is left as it was. *)
Theorem unknown_code_gets_nothing rt c s code :
  codeOf c = Some code → unknownCode s code →
  Success (Reply (serve rt c s).2) = false
  ∧ Data (Reply (serve rt c s).2) = NoData
  ∧ (serve rt c s).1 = s.
Proof.
  intros Hcode Hu.
  pose proof (findUserBySecretCode_unknown (usersIter rt) s code Hu) as Hf.
  destruct c as [r|r|r|r|r|r|r]; simpl in *; [done|..];
    destruct (Body r) as [req|] eqn:Hb; simplify_eq/=;
    [unfold loginHandler|unfold submitComplaintHandler
    |unfold getAllComplaintsForUserHandler
    |unfold getAllComplaintsForAdminHandler|unfold viewComplaintHandler
    |unfold resolveComplaintHandler]; unfold decoded;
    rewrite Hb; repeat case_match; simplify_eq/=; done.
Qed.

(** ** Accounts and complaints from one call to the next *)

Lemma sameAccount_refl u : sameAccount u u.
Proof. by repeat split. Qed.

Lemma sameAccount_trans u1 u2 u3 :
  sameAccount u1 u2 → sameAccount u2 u3 → sameAccount u1 u3.
Proof.
  intros (? & ? & ? & ? & ?) (? & ? & ? & ? & ?).
  repeat split; congruence.
Qed.

Lemma sameComplaint_refl c : sameComplaint c c.
Proof. by repeat split. Qed.

Lemma sameComplaint_trans c1 c2 c3 :
  sameComplaint c1 c2 → sameComplaint c2 c3 → sameComplaint c1 c3.
Proof.
  intros (? & ? & ? & ? & ? & ? & ?) (? & ? & ? & ? & ? & ? & ?).
  repeat split; congruence.
Qed.

Lemma length_resolveInList id at_ l :
  length (resolveInList id at_ l) = length l.
Proof.
  rewrite <- (length_fmap Complaint.ID), resolveInList_ids.
  apply length_fmap.
Qed.

(** An account under [k] after the owner's copy has been updated is the
    account that was under [k], with the ids of its complaints as before. *)
Lemma usersAfterResolve_lookup c' s k u' :
  usersAfterResolve c' s !! k = Some u' →
  ∃ u, users s !! k = Some u ∧ sameAccount u u'
       ∧ Complaint.ID <$> User.Complaints u'
         = Complaint.ID <$> User.Complaints u.
Proof.
  unfold usersAfterResolve.
  destruct (users s !! Complaint.UserID c') as [owner|] eqn:Ho.
  - intros [[<- <-]|[? Hk]]%lookup_insert_Some.
    + exists owner. split; [done|]. split; [by repeat split|].
      simpl. apply resolveInList_ids.
    + exists u'. by split; [|split; [apply sameAccount_refl|]].
  - intros Hk. exists u'. by split; [|split; [apply sameAccount_refl|]].
Qed.

Lemma usersAfterResolve_keeps c' s k u :
  users s !! k = Some u →
  ∃ u', usersAfterResolve c' s !! k = Some u' ∧ sameAccount u u'
        ∧ Complaint.ID <$> User.Complaints u'
          = Complaint.ID <$> User.Complaints u.
Proof.
  intros Hk. unfold usersAfterResolve.
  destruct (users s !! Complaint.UserID c') as [owner|] eqn:Ho.
  - destruct (decide (Complaint.UserID c' = k)) as [<-|Hne].
    + rewrite lookup_insert_eq. eexists. split; [done|].
      assert (owner = u) as -> by congruence.
      split; [by repeat split|]. simpl. apply resolveInList_ids.
    + rewrite lookup_insert_ne by done.
      exists u. by split; [|split; [apply sameAccount_refl|]].
  - exists u. by split; [|split; [apply sameAccount_refl|]].
Qed.

(** What a call does to the accounts, seen from the store before. *)
Lemma serve_keeps_account rt call s k u :
  Inv s → userIDGen s + 1 ≤ maxInt →
  users s !! k = Some u →
  ∃ u', users (serve rt call s).1 !! k = Some u' ∧ sameAccount u u'
        ∧ (length (User.Complaints u) ≤ length (User.Complaints u'))%nat.
Proof.
  intros HI Hb Hk. pose proof (inv_uid s HI).
  assert (∃ u', users s !! k = Some u' ∧ sameAccount u u'
            ∧ (length (User.Complaints u) ≤ length (User.Complaints u'))%nat)
    as Hsame by (exists u; by split; [|split; [apply sameAccount_refl|]]).
  destruct call as [r|r|r|r|r|r|r]; simpl.
  - destruct (registerHandler_effect rt r s)
      as [(-> & _)|(req & _ & _ & ->)]; [done|]. simpl.
    rewrite lookup_insert_ne; [done|]. rewrite wrap_succ by lia.
    apply (inv_user_key s HI) in Hk. lia.
  - by rewrite loginHandler_state.
  - destruct (submitComplaintHandler_effect rt r s)
      as [(-> & _)|(req & p & user & _ & Hf & _ & ->)]; [done|]. simpl.
    apply findUserBySecretCode_Some in Hf as [Hp _].
    destruct (decide (p = k)) as [->|Hne].
    + rewrite lookup_insert_eq. eexists. split; [done|].
      assert (user = u) as -> by congruence.
      split; [by repeat split|]. simpl. rewrite length_app. lia.
    + by rewrite lookup_insert_ne.
  - by rewrite getAllComplaintsForUserHandler_state.
  - by rewrite getAllComplaintsForAdminHandler_state.
  - by rewrite viewComplaintHandler_state.
  - destruct (resolveComplaintHandler_effect rt r s)
      as [(-> & _)|(req & c & _ & _ & _ & ->)]; [done|]. simpl.
    destruct (usersAfterResolve_keeps
                (resolved (getCurrentTime (Now rt)) c) s k u Hk)
      as (u' & Hu' & Hs & Hids).
    exists u'. split; [done|]. split; [done|].
    rewrite <- (length_fmap Complaint.ID (User.Complaints u)), <- Hids.
    by rewrite length_fmap.
Qed.

(** What a call does to the complaints, seen from the store before. *)
Lemma serve_keeps_complaint rt call s k c :
  Inv s → compIDGen s + 1 ≤ maxInt →
  complaints s !! k = Some c →
  ∃ c', complaints (serve rt call s).1 !! k = Some c' ∧ sameComplaint c c'
        ∧ (Complaint.IsResolved c = true → c' = c).
Proof.
  intros HI Hb Hk. pose proof (inv_cid s HI).
  assert (∃ c', complaints s !! k = Some c' ∧ sameComplaint c c'
            ∧ (Complaint.IsResolved c = true → c' = c))
    as Hsame by (exists c; by split; [|split; [apply sameComplaint_refl|]]).
  destruct call as [r|r|r|r|r|r|r]; simpl.
  - destruct (registerHandler_effect rt r s)
      as [(-> & _)|(req & _ & _ & ->)]; done.
  - by rewrite loginHandler_state.
  - destruct (submitComplaintHandler_effect rt r s)
      as [(-> & _)|(req & p & user & _ & _ & _ & ->)]; [done|]. simpl.
    rewrite lookup_insert_ne; [done|]. rewrite wrap_succ by lia.
    apply (inv_comp_key s HI) in Hk. lia.
  - by rewrite getAllComplaintsForUserHandler_state.
  - by rewrite getAllComplaintsForAdminHandler_state.
  - by rewrite viewComplaintHandler_state.
  - destruct (resolveComplaintHandler_effect rt r s)
      as [(-> & _)|(req & c0 & _ & Hc0 & Hres0 & ->)]; [done|]. simpl.
    destruct (decide (ResolveComplaintRequest.ComplaintID req = k))
      as [Heq|Hne].
    + rewrite Heq in *. rewrite lookup_insert_eq.
      assert (c0 = c) as -> by congruence.
      eexists. split; [done|]. split; [by repeat split|]. congruence.
    + by rewrite lookup_insert_ne.
Qed.
